(** * The default intent request handler

    A shallow embedding of
    [src/extension/prompt/node/defaultIntentRequestHandler.ts]: the
    handler that drives one chat request through an intent invocation and a
    tool-calling loop, classifies the terminal fetch result and records the
    outcome on the conversation's latest turn.

    Stateful code is written in a small monad over an explicit [World]: the
    output stream, the turn, the log and the telemetry sinks.  A thrown
    JavaScript exception is the [inl] result of a computation; the state
    changes made before the throw are kept, as they are in the source. *)

From Stdlib Require Import Ascii String QArith Qminmax.
From stdpp Require Import base option list strings gmap.

Local Open Scope string_scope.
Local Open Scope list_scope.

(** ** Enumerations and plain data *)

(** The kinds of a terminal fetch result; the members are the cases of the
    exhaustive switch in [processResult]. *)
Module ChatFetchResponseType.
Inductive t :=
| Success | OffTopic | Canceled | QuotaExceeded | RateLimited
| BadRequest | NetworkError | Failed | Filtered | PromptFiltered
| AgentUnauthorized | AgentFailedDependency | Length | NotFound
| Unknown | ExtensionBlocked | InvalidStatefulMarker.

Definition eqb (a b : t) : bool :=
  match a, b with
  | Success, Success | OffTopic, OffTopic | Canceled, Canceled
  | QuotaExceeded, QuotaExceeded | RateLimited, RateLimited
  | BadRequest, BadRequest | NetworkError, NetworkError | Failed, Failed
  | Filtered, Filtered | PromptFiltered, PromptFiltered
  | AgentUnauthorized, AgentUnauthorized
  | AgentFailedDependency, AgentFailedDependency | Length, Length
  | NotFound, NotFound | Unknown, Unknown
  | ExtensionBlocked, ExtensionBlocked
  | InvalidStatefulMarker, InvalidStatefulMarker => true
  | _, _ => false
  end.
End ChatFetchResponseType.

(** The statuses the handler passes to [Turn.setResponse]. *)
Module TurnStatus.
Inductive t := Success | Cancelled | OffTopic | Filtered | PromptFiltered | Error.
End TurnStatus.

Module ChatLocation.
Inductive t := Panel | Editor | Terminal | Notebook | Agent | Other.
End ChatLocation.

Module ToolCallLimitBehavior.
Inductive t := Confirm | Stop.
End ToolCallLimitBehavior.

(** [FilterReason] is a string-valued enumeration; the handler names only
    its [Prompt] member and otherwise forwards [fetchResult.category]. *)
Definition FilterReason := string.
Definition FilterReason_Prompt : FilterReason := "prompt".

(** A fetch result, with the fields the handler reads: the tag, the request
    id, the text of a success and the category of a filtered response. The
    whole record is what the error formatter receives. *)
Record ChatResponse := {
  type : ChatFetchResponseType.t;
  requestId : string;
  serverRequestId : option string;
  reason : string;
  value : string;
  category : FilterReason;
}.


Record ChatErrorDetails := {
  message : string;
  responseIsFiltered : option bool;
}.

(** The object literal [{ message }]. *)
Definition messageOnly (m : string) : ChatErrorDetails :=
  {| message := m; responseIsFiltered := None |}.

Record IToolCall := {
  tc_id : string;
  tc_name : string;
  tc_arguments : string;
}.

Record IToolCallRound := {
  response : string;
  toolCalls : list IToolCall;
}.

(** A tool result: a list of content parts, of which only the text parts
    carry a string [value]. *)
Inductive ToolResultPart := TextPart (v : string) | DataPart.
Record LanguageModelToolResult2 := { content : list ToolResultPart }.

(** [Record<string, LanguageModelToolResult2>]; after
    [_collectRelevantToolCallResults] a key can be present with the value
    [undefined], which is [Some None] at that key. *)
Abbreviation ToolCallResults := (gmap string (option LanguageModelToolResult2)).

(** The part of [IResultMetadata] this file writes. *)
Record IResultMetadata := {
  md_toolCallRounds : option (list IToolCallRound);
  md_toolCallResults : option ToolCallResults;
  maxToolCallsExceeded : option bool;
  filterReason : option FilterReason;
  md_codeBlocks : option string;
  md_summary : option string;
  md_renderedUserMessage : option string;
  md_renderedGlobalContext : option string;
}.

Definition emptyMetadata : IResultMetadata :=
  {| md_toolCallRounds := None; md_toolCallResults := None;
     maxToolCallsExceeded := None; filterReason := None;
     md_codeBlocks := None; md_summary := None;
     md_renderedUserMessage := None; md_renderedGlobalContext := None |}.

Record ChatResult := {
  errorDetails : option ChatErrorDetails;
  metadata : option IResultMetadata;
}.

(** The object literal [{}]. *)
Definition emptyResult : ChatResult := {| errorDetails := None; metadata := None |}.

Inductive TurnMessageType := meta | model | user | server | offtopic_detection.

Record TurnMessage := {
  tm_type : TurnMessageType;
  tm_message : string;
}.

(** One call of [Turn.setResponse(status, message, responseId, chatResult)]. *)
Record TurnResponse := {
  status : TurnStatus.t;
  turnMessage : option TurnMessage;
  responseId : option string;
  responseChatResult : ChatResult;
}.

Record ChatRequest := {
  prompt : string;
  attempt : nat;
  acceptedConfirmationData : option (list string);
  rejectedConfirmationData : option (list string);
  modeInstructions : option string;
}.

Record IDefaultIntentRequestHandlerOptions := {
  maxToolCallIterations : nat;
  confirmOnMaxToolIterations : option bool;
  ho_temperature : option Q;
  overrideRequestLocation : option ChatLocation.t;
  hideRateLimitTimeEstimate : option bool;
}.

Record IConversationOptions := {
  co_temperature : Q;
  rejectionMessage : string;
}.

(** What [intent.invoke] returns, as data: whether the optional members
    [confirmationHandler] and [modifyErrorDetails] are defined; their
    behaviour is a collaborator (see [Services]). *)
Record IIntentInvocation := {
  invocationName : string;
  hasConfirmationHandler : bool;
  hasModifyErrorDetails : bool;
}.

Record ChatCommand := {
  cmd_title : string;
  cmd_command : string;
  cmd_tooltip : string;
}.

(** Parts pushed to the response stream. *)
Inductive ChatResponsePart :=
| Markdown (text : string)
| CommandButton (c : ChatCommand)
| Confirmation
| OtherPart (label : string).

(** Thrown values, by the tests of the [catch] block of [getResult]. *)
Inductive Exn :=
| ToolCallCancelledError (msg : string)
| CancellationError (msg : string)
| EmptyPromptError (msg : string)
| OtherError (msg : string).

Definition exnMessage (e : Exn) : string :=
  match e with
  | ToolCallCancelledError m | CancellationError m
  | EmptyPromptError m | OtherError m => m
  end.

Definition instanceofToolCallCancelledError (e : Exn) : bool :=
  match e with ToolCallCancelledError _ => true | _ => false end.

Definition isCancellationError (e : Exn) : bool :=
  match e with CancellationError _ => true | _ => false end.

Definition instanceofEmptyPromptError (e : Exn) : bool :=
  match e with EmptyPromptError _ => true | _ => false end.

Inductive LogEntry := LogTrace (s : string) | LogError (e : Exn).

(** The outcome argument of [sendToolCallingTelemetry]. *)
Inductive ToolCallingOutcome :=
| OutcomeCancelled
| OutcomeResponse (t : ChatFetchResponseType.t)
| OutcomeMaxToolCalls.

Inductive TelemetryEvent :=
| ToolCallingTelemetry (rounds : list IToolCallRound) (outcome : ToolCallingOutcome)
| MarkAsDisplayed (messageId : string)
| ModelMessageTelemetry (appliedText reqId modeName : string)
| GHTelemetryException (e : Exn) (origin : string).

(** The metadata bag of the turn, by the classes this file stores or reads. *)
Record TurnMetadata := {
  intentInvocationMetadata : option IIntentInvocation;
  codeBlocksMetadata : option string;
  summarizedConversationHistory : option string;
  renderedUserMessageMetadata : option string;
  globalContextMessageMetadata : option string;
}.

(** ** The world the handler acts on *)

Record World := {
  stream : list ChatResponsePart;
  turnResponses : list TurnResponse;
  turnMetadata : TurnMetadata;
  logs : list LogEntry;
  telemetry : list TelemetryEvent;
  surveyUsage : list (string * option string);
  isCancellationRequested : bool;
  intentInvocations : nat;
  loopRuns : nat;
}.

Definition noTurnMetadata : TurnMetadata :=
  {| intentInvocationMetadata := None; codeBlocksMetadata := None;
     summarizedConversationHistory := None; renderedUserMessageMetadata := None;
     globalContextMessageMetadata := None |}.

Definition initialWorld : World :=
  {| stream := []; turnResponses := []; turnMetadata := noTurnMetadata;
     logs := []; telemetry := []; surveyUsage := [];
     isCancellationRequested := false; intentInvocations := 0; loopRuns := 0 |}.

(** ** The monad: state, and exceptions that keep the state *)

Definition M (A : Type) : Type := World -> (Exn + A) * World.

Definition ret {A} (a : A) : M A := fun w => (inr a, w).

Definition bind {A B} (m : M A) (k : A -> M B) : M B :=
  fun w => match m w with
           | (inr a, w') => k a w'
           | (inl e, w') => (inl e, w')
           end.

Definition throw {A} (e : Exn) : M A := fun w => (inl e, w).

Definition tryCatch {A} (body : M A) (handler : Exn -> M A) : M A :=
  fun w => match body w with
           | (inr a, w') => (inr a, w')
           | (inl e, w') => handler e w'
           end.

Definition gets {A} (f : World -> A) : M A := fun w => (inr (f w), w).

Definition modify (f : World -> World) : M unit := fun w => (inr tt, f w).

Declare Scope handler_scope.
Delimit Scope handler_scope with handler.
Notation "x <- m ;; k" := (bind m (fun x => k))
  (at level 100, m at next level, right associativity) : handler_scope.
Notation "m ;; k" := (bind m (fun _ => k))
  (at level 100, right associativity) : handler_scope.
Local Open Scope handler_scope.

(** *** Primitive effects *)

Definition pushPart (p : ChatResponsePart) (w : World) : World :=
  {| stream := stream w ++ [p]; turnResponses := turnResponses w;
     turnMetadata := turnMetadata w; logs := logs w; telemetry := telemetry w;
     surveyUsage := surveyUsage w;
     isCancellationRequested := isCancellationRequested w;
     intentInvocations := intentInvocations w; loopRuns := loopRuns w |}.

Definition recordResponse (r : TurnResponse) (w : World) : World :=
  {| stream := stream w; turnResponses := turnResponses w ++ [r];
     turnMetadata := turnMetadata w; logs := logs w; telemetry := telemetry w;
     surveyUsage := surveyUsage w;
     isCancellationRequested := isCancellationRequested w;
     intentInvocations := intentInvocations w; loopRuns := loopRuns w |}.

Definition appendLog (l : LogEntry) (w : World) : World :=
  {| stream := stream w; turnResponses := turnResponses w;
     turnMetadata := turnMetadata w; logs := logs w ++ [l];
     telemetry := telemetry w; surveyUsage := surveyUsage w;
     isCancellationRequested := isCancellationRequested w;
     intentInvocations := intentInvocations w; loopRuns := loopRuns w |}.

Definition appendTelemetry (t : TelemetryEvent) (w : World) : World :=
  {| stream := stream w; turnResponses := turnResponses w;
     turnMetadata := turnMetadata w; logs := logs w;
     telemetry := telemetry w ++ [t]; surveyUsage := surveyUsage w;
     isCancellationRequested := isCancellationRequested w;
     intentInvocations := intentInvocations w; loopRuns := loopRuns w |}.

Definition stream_push (p : ChatResponsePart) : M unit := modify (pushPart p).

Definition stream_markdown (s : string) : M unit := stream_push (Markdown s).

Definition turn_setResponse (st : TurnStatus.t) (msg : option TurnMessage)
    (rid : option string) (cr : ChatResult) : M unit :=
  modify (recordResponse
            {| status := st; turnMessage := msg; responseId := rid;
               responseChatResult := cr |}).

Definition turn_setMetadata (f : TurnMetadata -> TurnMetadata) : M unit :=
  modify (fun w =>
    {| stream := stream w; turnResponses := turnResponses w;
       turnMetadata := f (turnMetadata w); logs := logs w;
       telemetry := telemetry w; surveyUsage := surveyUsage w;
       isCancellationRequested := isCancellationRequested w;
       intentInvocations := intentInvocations w; loopRuns := loopRuns w |}).

Definition log (l : LogEntry) : M unit := modify (appendLog l).

Definition sendTelemetry (t : TelemetryEvent) : M unit := modify (appendTelemetry t).

Definition signalUsage (s : string * option string) : M unit :=
  modify (fun w =>
    {| stream := stream w; turnResponses := turnResponses w;
       turnMetadata := turnMetadata w; logs := logs w;
       telemetry := telemetry w; surveyUsage := surveyUsage w ++ [s];
       isCancellationRequested := isCancellationRequested w;
       intentInvocations := intentInvocations w; loopRuns := loopRuns w |}).

Definition withIntentInvocation (w : World) : World :=
  {| stream := stream w; turnResponses := turnResponses w;
     turnMetadata := turnMetadata w; logs := logs w;
     telemetry := telemetry w; surveyUsage := surveyUsage w;
     isCancellationRequested := isCancellationRequested w;
     intentInvocations := S (intentInvocations w); loopRuns := loopRuns w |}.

Definition withLoopRun (w : World) : World :=
  {| stream := stream w; turnResponses := turnResponses w;
     turnMetadata := turnMetadata w; logs := logs w;
     telemetry := telemetry w; surveyUsage := surveyUsage w;
     isCancellationRequested := isCancellationRequested w;
     intentInvocations := intentInvocations w; loopRuns := S (loopRuns w) |}.

Definition countIntentInvocation : M unit := modify withIntentInvocation.

Definition countLoopRun : M unit := modify withLoopRun.

(** ** Localisation: [l10n.t(message, ...args)]

    With no translation bundle loaded the message is its own template, and
    each [{n}] is replaced by the [n]-th argument when there is one. *)

Definition digitValue (c : ascii) : option nat :=
  let n := nat_of_ascii c in
  if (48 <=? n)%nat && (n <=? 57)%nat then Some (n - 48)%nat else None.

(** The text up to the next closing brace, as a decimal index, and the rest
    after the brace. *)
Fixpoint readIndex (s : string) (acc : option nat) : option (nat * string) :=
  match s with
  | EmptyString => None
  | String c rest =>
      if Ascii.eqb c "}"%char then
        match acc with Some n => Some (n, rest) | None => None end
      else
        match digitValue c with
        | Some d =>
            readIndex rest (Some (match acc with Some n => 10 * n + d | None => d end)%nat)
        | None => None
        end
  end.

Fixpoint format (fuel : nat) (template : string) (args : list string) : string :=
  match fuel with
  | O => template
  | S fuel' =>
      match template with
      | EmptyString => EmptyString
      | String c rest =>
          if Ascii.eqb c "{"%char then
            match readIndex rest None with
            | Some (n, rest') =>
                match args !! n with
                | Some a => a +:+ format fuel' rest' args
                | None => String c (format fuel' rest args)
                end
            | None => String c (format fuel' rest args)
            end
          else String c (format fuel' rest args)
      end
  end.

Definition l10n_t (msg : string) (args : list string) : string :=
  format (String.length msg) msg args.

(** ** The handler and its collaborators *)

(** The fields of [DefaultIntentRequestHandler] the methods read. The
    document context is kept as the language id of its document. *)
Record Handler := {
  intentId : string;
  request : ChatRequest;
  location : ChatLocation.t;
  documentContext : option string;
  handlerOptions : IDefaultIntentRequestHandlerOptions;
  options : IConversationOptions;
}.

Record IDefaultToolLoopOptions := {
  lo_intentId : string;
  lo_invocation : IIntentInvocation;
  toolCallLimit : nat;
  onHitToolCallLimit : ToolCallLimitBehavior.t;
  lo_request : ChatRequest;
  lo_temperature : Q;
  lo_location : ChatLocation.t;
  lo_overrideRequestLocation : option ChatLocation.t;
}.

Record IToolCallLoopResult := {
  lr_response : ChatResponse;
  lr_round : IToolCallRound;
  lr_chatResult : option ChatResult;
  hadIgnoredFiles : bool;
  lr_toolCallRounds : list IToolCallRound;
  lr_toolCallResults : gmap string LanguageModelToolResult2;
}.

(** The services, helpers and constants the file imports from elsewhere in
    the repository. None of them is defined in this file; each is a method
    of this interface, and every statement below holds for all of them. *)
Class Services := {
  isToolCallLimitCancellation : ChatRequest -> bool;
  getErrorDetailsFromChatFetchError :
    ChatResponse -> string -> option bool -> ChatErrorDetails;
  (** [(await getCopilotToken()).copilotPlan] *)
  copilotPlan : World -> string;
  CanceledResult : ChatResult;
  HAS_IGNORED_FILES_MESSAGE : string;
  (** [createTelemetryWithId().properties.messageId] *)
  createTelemetryWithId : World -> string;
  intent_invoke : Handler -> M IIntentInvocation;
  confirmationHandler :
    IIntentInvocation -> option (list string) -> option (list string) -> M unit;
  modifyErrorDetails :
    IIntentInvocation -> ChatErrorDetails -> ChatResponse -> ChatErrorDetails;
  (** [loop.run(this.stream, pauseCtrl)] of the [ToolCallingLoop] base class *)
  loop_run : IDefaultToolLoopOptions -> M IToolCallLoopResult;
  (** The commands of the [BUTTON_DATA] comments found in a tool content
      (a regular expression and [JSON.parse] in [extractAndRenderButtons]). *)
  buttonCommands : string -> list ChatCommand;
}.

Section Handler.
Context `{Services}.

(** *** The tool-calling loop options and the temperature *)

(** [DefaultToolCallingLoop.calculateTemperature]. Temperatures are numbers
    of the configuration; they are taken as exact rationals, so that the
    product and the minimum are the mathematical ones. *)
Definition calculateTemperature (o : IDefaultToolLoopOptions) : Q :=
  if (0 <? attempt (lo_request o))%nat then
    Qmin (lo_temperature o * inject_Z (Z.of_nat (attempt (lo_request o) + 1))) 2
  else
    lo_temperature o.

(** The options [runWithToolCalling] creates the loop with. *)
Definition loopOptions (h : Handler) (intentInvocation : IIntentInvocation)
    : IDefaultToolLoopOptions :=
  {| lo_intentId := intentId h;
     lo_invocation := intentInvocation;
     toolCallLimit := maxToolCallIterations (handlerOptions h);
     onHitToolCallLimit :=
       match confirmOnMaxToolIterations (handlerOptions h) with
       | Some false => ToolCallLimitBehavior.Stop
       | _ => ToolCallLimitBehavior.Confirm
       end;
     lo_request := request h;
     lo_temperature :=
       default (co_temperature (options h)) (ho_temperature (handlerOptions h));
     lo_location := location h;
     lo_overrideRequestLocation := overrideRequestLocation (handlerOptions h) |}.

(** *** The classifier *)

(** JavaScript truthiness of an optional string. *)
Definition truthy (o : option string) : bool :=
  match o with
  | Some s => negb (String.length s =? 0)%nat
  | None => false
  end.

Definition getModeName (h : Handler) : string :=
  if truthy (modeInstructions (request h)) then "custom"
  else if String.eqb (intentId h) "editAgent" then "agent"
  else if String.eqb (intentId h) "edit" || String.eqb (intentId h) "edit2" then "edit"
  else "ask".

Definition hasToolCalls (r : IToolCallRound) : bool :=
  negb (length (toolCalls r) =? 0)%nat.

Definition processSuccessfulFetchResult (h : Handler) (appliedText requestId : string)
    (chatResult : ChatResult) (messageId : string) (rounds : list IToolCallRound)
    : M ChatResult :=
  if (String.length appliedText =? 0)%nat && negb (existsb hasToolCalls rounds) then
    let message :=
      l10n_t "The model unexpectedly did not return a response. Request ID: {0}"
             [requestId] in
    turn_setResponse TurnStatus.Error
      (Some {| tm_type := meta; tm_message := message |}) (Some messageId) chatResult ;;
    ret {| errorDetails := Some (messageOnly message); metadata := None |}
  else
    turn_setResponse TurnStatus.Success
      (Some {| tm_type := model; tm_message := appliedText |}) (Some messageId) chatResult ;;
    sendTelemetry (MarkAsDisplayed messageId) ;;
    sendTelemetry (ModelMessageTelemetry appliedText requestId (getModeName h)) ;;
    ret chatResult.

Definition processOffTopicFetchResult (h : Handler) (messageId : string) : M ChatResult :=
  stream_markdown (rejectionMessage (options h)) ;;
  turn_setResponse TurnStatus.OffTopic
    (Some {| tm_type := offtopic_detection; tm_message := rejectionMessage (options h) |})
    (Some messageId) emptyResult ;;
  ret emptyResult.

Definition withFilterReason (md : IResultMetadata) (r : FilterReason) : IResultMetadata :=
  {| md_toolCallRounds := md_toolCallRounds md;
     md_toolCallResults := md_toolCallResults md;
     maxToolCallsExceeded := maxToolCallsExceeded md;
     filterReason := Some r;
     md_codeBlocks := md_codeBlocks md; md_summary := md_summary md;
     md_renderedUserMessage := md_renderedUserMessage md;
     md_renderedGlobalContext := md_renderedGlobalContext md |}.

Definition processResult (h : Handler) (fetchResult : ChatResponse)
    (responseMessage : string) (chatResult : option ChatResult)
    (metadataFragment : IResultMetadata) (messageId : string)
    (rounds : list IToolCallRound) : M ChatResult :=
  match type fetchResult with
  | ChatFetchResponseType.Success =>
      processSuccessfulFetchResult h responseMessage (requestId fetchResult)
        (default emptyResult chatResult) messageId rounds
  | ChatFetchResponseType.OffTopic =>
      processOffTopicFetchResult h messageId
  | ChatFetchResponseType.Canceled =>
      plan <- gets copilotPlan ;;
      let errorDetails := getErrorDetailsFromChatFetchError fetchResult plan None in
      let chatResult :=
        {| errorDetails := Some errorDetails; metadata := Some metadataFragment |} in
      turn_setResponse TurnStatus.Cancelled
        (Some {| tm_type := user; tm_message := message errorDetails |})
        (Some messageId) chatResult ;;
      ret chatResult
  | ChatFetchResponseType.QuotaExceeded
  | ChatFetchResponseType.RateLimited =>
      plan <- gets copilotPlan ;;
      let errorDetails :=
        getErrorDetailsFromChatFetchError fetchResult plan
          (hideRateLimitTimeEstimate (handlerOptions h)) in
      let chatResult :=
        {| errorDetails := Some errorDetails; metadata := Some metadataFragment |} in
      turn_setResponse TurnStatus.Error None (Some messageId) chatResult ;;
      ret chatResult
  | ChatFetchResponseType.BadRequest
  | ChatFetchResponseType.NetworkError
  | ChatFetchResponseType.Failed =>
      plan <- gets copilotPlan ;;
      let errorDetails := getErrorDetailsFromChatFetchError fetchResult plan None in
      let chatResult :=
        {| errorDetails := Some errorDetails; metadata := Some metadataFragment |} in
      turn_setResponse TurnStatus.Error
        (Some {| tm_type := server; tm_message := message errorDetails |})
        (Some messageId) chatResult ;;
      ret chatResult
  | ChatFetchResponseType.Filtered =>
      plan <- gets copilotPlan ;;
      let errorDetails := getErrorDetailsFromChatFetchError fetchResult plan None in
      let chatResult :=
        {| errorDetails := Some errorDetails;
           metadata := Some (withFilterReason metadataFragment (category fetchResult)) |} in
      turn_setResponse TurnStatus.Filtered None (Some messageId) chatResult ;;
      ret chatResult
  | ChatFetchResponseType.PromptFiltered =>
      plan <- gets copilotPlan ;;
      let errorDetails := getErrorDetailsFromChatFetchError fetchResult plan None in
      let chatResult :=
        {| errorDetails := Some errorDetails;
           metadata := Some (withFilterReason metadataFragment FilterReason_Prompt) |} in
      turn_setResponse TurnStatus.PromptFiltered None (Some messageId) chatResult ;;
      ret chatResult
  | ChatFetchResponseType.AgentUnauthorized =>
      let chatResult := emptyResult in
      turn_setResponse TurnStatus.Error None (Some messageId) chatResult ;;
      ret chatResult
  | ChatFetchResponseType.AgentFailedDependency =>
      plan <- gets copilotPlan ;;
      let errorDetails := getErrorDetailsFromChatFetchError fetchResult plan None in
      let chatResult :=
        {| errorDetails := Some errorDetails; metadata := Some metadataFragment |} in
      turn_setResponse TurnStatus.Error None (Some messageId) chatResult ;;
      ret chatResult
  | ChatFetchResponseType.Length =>
      plan <- gets copilotPlan ;;
      let errorDetails := getErrorDetailsFromChatFetchError fetchResult plan None in
      let chatResult :=
        {| errorDetails := Some errorDetails; metadata := Some metadataFragment |} in
      turn_setResponse TurnStatus.Error None (Some messageId) chatResult ;;
      ret chatResult
  | ChatFetchResponseType.NotFound
  | ChatFetchResponseType.Unknown =>
      plan <- gets copilotPlan ;;
      let errorDetails := getErrorDetailsFromChatFetchError fetchResult plan None in
      let chatResult :=
        {| errorDetails := Some errorDetails; metadata := Some metadataFragment |} in
      turn_setResponse TurnStatus.Error None (Some messageId) chatResult ;;
      ret chatResult
  | ChatFetchResponseType.ExtensionBlocked =>
      plan <- gets copilotPlan ;;
      let errorDetails := getErrorDetailsFromChatFetchError fetchResult plan None in
      let chatResult :=
        {| errorDetails := Some errorDetails; metadata := Some metadataFragment |} in
      turn_setResponse TurnStatus.Error None (Some messageId) chatResult ;;
      ret chatResult
  | ChatFetchResponseType.InvalidStatefulMarker =>
      throw (OtherError "unreachable")
  end.

(** *** Running the loop *)

Definition toolContent (toolResult : LanguageModelToolResult2) : string :=
  foldl (fun acc part =>
           match part with
           | TextPart v => acc +:+ v
           | DataPart => acc
           end) "" (content toolResult).

Definition extractAndRenderButtons (content : string) : M unit :=
  foldr (fun c k => stream_push (CommandButton c) ;; k) (ret tt)
        (buttonCommands content).

Definition processToolResultForButtons (toolResult : LanguageModelToolResult2) : M unit :=
  extractAndRenderButtons (toolContent toolResult).

Definition isParallelTaskCall (call : IToolCall) : bool :=
  String.eqb (tc_name call) "suggest_parallel_tasks".

Definition processPostLoopParallelTaskButtons (toolCallRounds : list IToolCallRound)
    (toolCallResults : gmap string LanguageModelToolResult2) : M unit :=
  let allParallelTaskCalls :=
    concat (map (fun round => filter (fun c => isParallelTaskCall c = true) (toolCalls round))
                toolCallRounds) in
  foldr (fun call k =>
           match toolCallResults !! tc_id call with
           | None => k
           | Some toolResult => processToolResultForButtons toolResult ;; k
           end)
        (ret tt) allParallelTaskCalls.

Definition resultWithMetadatas (tm : TurnMetadata) (chatResult : ChatResult) : ChatResult :=
  match codeBlocksMetadata tm, summarizedConversationHistory tm,
        renderedUserMessageMetadata tm, globalContextMessageMetadata tm with
  | None, None, None, None => chatResult
  | codeBlocks, summary, rendered, globalContext =>
      let md := default emptyMetadata (metadata chatResult) in
      {| errorDetails := errorDetails chatResult;
         metadata := Some
           {| md_toolCallRounds := md_toolCallRounds md;
              md_toolCallResults := md_toolCallResults md;
              maxToolCallsExceeded := maxToolCallsExceeded md;
              filterReason := filterReason md;
              md_codeBlocks :=
                match codeBlocks with Some c => Some c | None => md_codeBlocks md end;
              md_summary :=
                match summary with Some c => Some c | None => md_summary md end;
              md_renderedUserMessage :=
                match rendered with Some c => Some c | None => md_renderedUserMessage md end;
              md_renderedGlobalContext :=
                match globalContext with
                | Some c => Some c
                | None => md_renderedGlobalContext md
                end |} |}
  end.

Definition metadataMaxToolCallsExceeded (chatResult : ChatResult) : bool :=
  match metadata chatResult with
  | Some md => default false (maxToolCallsExceeded md)
  | None => false
  end.

Definition withChatResult (r : IToolCallLoopResult) (c : ChatResult) : IToolCallLoopResult :=
  {| lr_response := lr_response r; lr_round := lr_round r; lr_chatResult := Some c;
     hadIgnoredFiles := hadIgnoredFiles r; lr_toolCallRounds := lr_toolCallRounds r;
     lr_toolCallResults := lr_toolCallResults r |}.

Definition sendToolCallingTelemetry (rounds : list IToolCallRound)
    (outcome : ToolCallingOutcome) : M unit :=
  sendTelemetry (ToolCallingTelemetry rounds outcome).

Definition runWithToolCalling (h : Handler) (intentInvocation : IIntentInvocation)
    : M IToolCallLoopResult :=
  countLoopRun ;;
  result <- loop_run (loopOptions h intentInvocation) ;;
  cancelled <- gets isCancellationRequested ;;
  (if negb (hasToolCalls (lr_round result))
      || negb (ChatFetchResponseType.eqb (type (lr_response result))
                                         ChatFetchResponseType.Success)
   then sendToolCallingTelemetry (lr_toolCallRounds result)
          (if cancelled then OutcomeCancelled
           else OutcomeResponse (type (lr_response result)))
   else ret tt) ;;
  let chatResult := default emptyResult (lr_chatResult result) in
  (if metadataMaxToolCallsExceeded chatResult
   then sendToolCallingTelemetry (lr_toolCallRounds result) OutcomeMaxToolCalls
   else ret tt) ;;
  processPostLoopParallelTaskButtons (lr_toolCallRounds result) (lr_toolCallResults result) ;;
  tm <- gets turnMetadata ;;
  ret (withChatResult result (resultWithMetadatas tm chatResult)).

(** *** The request *)

Definition nonEmpty (o : option (list string)) : bool :=
  match o with
  | Some (_ :: _) => true
  | _ => false
  end.

Definition handleConfirmationsIfNeeded (h : Handler) : M (option ChatResult) :=
  tm <- gets turnMetadata ;;
  match intentInvocationMetadata tm with
  | None => throw (OtherError "Unexpected type")
  | Some intentInvocation =>
      if (nonEmpty (acceptedConfirmationData (request h))
          || nonEmpty (rejectedConfirmationData (request h)))
         && hasConfirmationHandler intentInvocation
      then
        confirmationHandler intentInvocation (acceptedConfirmationData (request h))
                            (rejectedConfirmationData (request h)) ;;
        ret (Some emptyResult)
      else ret None
  end.

Definition _collectRelevantToolCallResults (toolCallRounds : list IToolCallRound)
    (toolCallResults : gmap string LanguageModelToolResult2) : option ToolCallResults :=
  let resultsUsedInThisTurn : ToolCallResults :=
    foldl (fun acc round =>
             foldl (fun acc' toolCall =>
                      <[tc_id toolCall := toolCallResults !! tc_id toolCall]> acc')
                   acc (toolCalls round))
          ∅ toolCallRounds in
  if decide (size resultsUsedInThisTurn = 0%nat) then None else Some resultsUsedInThisTurn.

(** [mixin(chatResult, { metadata: metadataFragment }, true)]: the two keys
    of the fragment overwrite those of an existing metadata object, and a
    result map that exists on both sides is merged key by key. *)
Definition mixinMetadata (chatResult : ChatResult) (fragment : IResultMetadata) : ChatResult :=
  match metadata chatResult with
  | None => {| errorDetails := errorDetails chatResult; metadata := Some fragment |}
  | Some md =>
      {| errorDetails := errorDetails chatResult;
         metadata := Some
           {| md_toolCallRounds := md_toolCallRounds fragment;
              md_toolCallResults :=
                match md_toolCallResults md, md_toolCallResults fragment with
                | Some old, Some new => Some (new ∪ old)
                | _, new => new
                end;
              maxToolCallsExceeded := maxToolCallsExceeded md;
              filterReason := filterReason md;
              md_codeBlocks := md_codeBlocks md; md_summary := md_summary md;
              md_renderedUserMessage := md_renderedUserMessage md;
              md_renderedGlobalContext := md_renderedGlobalContext md |} |}
  end.

Definition applyModifyErrorDetails (intentInvocation : IIntentInvocation)
    (chatResult : ChatResult) (fetchResult : ChatResponse) : ChatResult :=
  match errorDetails chatResult with
  | Some details =>
      if hasModifyErrorDetails intentInvocation then
        {| errorDetails := Some (modifyErrorDetails intentInvocation details fetchResult);
           metadata := metadata chatResult |}
      else chatResult
  | None => chatResult
  end.

(** The statements of [getResult] that follow the loop (source lines
    128 to 147). *)
Definition resultOfLoop (h : Handler) (intentInvocation : IIntentInvocation)
    (resultDetails : IToolCallLoopResult) : M ChatResult :=
  let chatResult := default emptyResult (lr_chatResult resultDetails) in
  signalUsage
    ((match location h with ChatLocation.Editor => "inline" | _ => "panel" end)
       +:+ "." +:+ intentId h,
     documentContext h) ;;
  let responseMessage :=
    match last (lr_toolCallRounds resultDetails) with
    | Some round => response round
    | None => ""
    end in
  let metadataFragment :=
    {| md_toolCallRounds := Some (lr_toolCallRounds resultDetails);
       md_toolCallResults :=
         _collectRelevantToolCallResults (lr_toolCallRounds resultDetails)
                                         (lr_toolCallResults resultDetails);
       maxToolCallsExceeded := None; filterReason := None;
       md_codeBlocks := None; md_summary := None;
       md_renderedUserMessage := None; md_renderedGlobalContext := None |} in
  let chatResult := mixinMetadata chatResult metadataFragment in
  messageId <- gets createTelemetryWithId ;;
  chatResult <- processResult h (lr_response resultDetails) responseMessage
                  (Some chatResult) metadataFragment messageId
                  (lr_toolCallRounds resultDetails) ;;
  let chatResult :=
    applyModifyErrorDetails intentInvocation chatResult (lr_response resultDetails) in
  (if hadIgnoredFiles resultDetails
   then stream_markdown HAS_IGNORED_FILES_MESSAGE
   else ret tt) ;;
  ret chatResult.

Definition setIntentInvocationMetadata (intentInvocation : IIntentInvocation) : M unit :=
  turn_setMetadata (fun tm =>
    {| intentInvocationMetadata := Some intentInvocation;
       codeBlocksMetadata := codeBlocksMetadata tm;
       summarizedConversationHistory := summarizedConversationHistory tm;
       renderedUserMessageMetadata := renderedUserMessageMetadata tm;
       globalContextMessageMetadata := globalContextMessageMetadata tm |}).

(** The body of the [try] block of [getResult]. *)
Definition getResultBody (h : Handler) : M ChatResult :=
  cancelled <- gets isCancellationRequested ;;
  if cancelled then ret CanceledResult else
  log (LogTrace "Processing intent") ;;
  countIntentInvocation ;;
  intentInvocation <- intent_invoke h ;;
  cancelled <- gets isCancellationRequested ;;
  if cancelled then ret CanceledResult else
  log (LogTrace "Processed intent") ;;
  setIntentInvocationMetadata intentInvocation ;;
  confirmationResult <- handleConfirmationsIfNeeded h ;;
  match confirmationResult with
  | Some r => ret r
  | None =>
      resultDetails <- runWithToolCalling h intentInvocation ;;
      resultOfLoop h intentInvocation resultDetails
  end.

(** The [catch] block of [getResult]. *)
Definition getResultCatch (err : Exn) : M ChatResult :=
  if instanceofToolCallCancelledError err then
    turn_setResponse TurnStatus.Cancelled
      (Some {| tm_type := meta; tm_message := exnMessage err |}) None emptyResult ;;
    ret emptyResult
  else if isCancellationError err then ret CanceledResult
  else if instanceofEmptyPromptError err then ret emptyResult
  else
    log (LogError err) ;;
    sendTelemetry (GHTelemetryException err "Error") ;;
    let errorMessage := exnMessage err in
    let chatResult :=
      {| errorDetails := Some (messageOnly errorMessage); metadata := None |} in
    turn_setResponse TurnStatus.Error
      (Some {| tm_type := meta; tm_message := errorMessage |}) None chatResult ;;
    ret chatResult.

Definition getResult (h : Handler) : M ChatResult :=
  if isToolCallLimitCancellation (request h) then
    stream_markdown (l10n_t "Let me know if there's anything else I can help with!" []) ;;
    ret emptyResult
  else
    tryCatch (getResultBody h) getResultCatch.

End Handler.

(** What a computation that only pushes to the stream leaves as it was. *)
Definition streamOnly (w w' : World) : Prop :=
  telemetry w' = telemetry w /\ turnResponses w' = turnResponses w
  /\ turnMetadata w' = turnMetadata w.

(** ** The classification table of the specification

    The status the specification assigns to each kind of fetch result
    (section 4.1); [noResponse] says that a success came with an empty text
    and no tool call. The kind that must never reach the classifier has no
    status. *)
Definition expectedStatus (k : ChatFetchResponseType.t) (noResponse : bool)
    : option TurnStatus.t :=
  match k with
  | ChatFetchResponseType.Success =>
      Some (if noResponse then TurnStatus.Error else TurnStatus.Success)
  | ChatFetchResponseType.OffTopic => Some TurnStatus.OffTopic
  | ChatFetchResponseType.Canceled => Some TurnStatus.Cancelled
  | ChatFetchResponseType.Filtered => Some TurnStatus.Filtered
  | ChatFetchResponseType.PromptFiltered => Some TurnStatus.PromptFiltered
  | ChatFetchResponseType.InvalidStatefulMarker => None
  | _ => Some TurnStatus.Error
  end.

Definition noResponse (appliedText : string) (rounds : list IToolCallRound) : bool :=
  (String.length appliedText =? 0)%nat
  && forallb (fun r => (length (toolCalls r) =? 0)%nat) rounds.

(** ** The tool-calling loop at its iteration limit *)

Module ToolCallingLoop.

(** Modelled from the spec: the terminal states of a round of the loop in
    intents/node/toolCallingLoop.ts (continue, awaiting confirmation,
    stopped). *)
Inductive Phase := Running | AwaitingConfirmation | Stopped.

(** Modelled from the spec: the user's answer to a confirmation prompt. *)
Inductive Decision := Accept | Reject.

(** Modelled from the spec: what the loop of toolCallingLoop.ts has
    accumulated: the rounds, the fetches issued, the limit in force, the
    confirmations accepted, the maxToolCallsExceeded mark and the parts it
    pushed to the stream. *)
Record State := {
  phase : Phase;
  toolCallRounds : list IToolCallRound;
  fetches : nat;
  limitInForce : nat;
  accepted : nat;
  exceeded : bool;
  output : list ChatResponsePart;
  lastResponse : option ChatResponse;
}.

(** Modelled from the spec: one request to the transport, which is not part
    of this file: from the rounds so far, the terminal fetch result and the
    round it produces. *)
Definition Transport := list IToolCallRound -> ChatResponse * IToolCallRound.

Definition initial (o : IDefaultToolLoopOptions) : State :=
  {| phase := Running; toolCallRounds := []; fetches := 0;
     limitInForce := toolCallLimit o; accepted := 0; exceeded := false;
     output := []; lastResponse := None |}.

(** Modelled from the spec: the stop condition of toolCallingLoop.ts; the
    loop goes on after a round only on a success that asks for tools. *)
Definition wantsMoreTools (r : ChatResponse * IToolCallRound) : bool :=
  ChatFetchResponseType.eqb (type (fst r)) ChatFetchResponseType.Success
  && negb (length (toolCalls (snd r)) =? 0)%nat.

(** Modelled from the spec: the [run] method of the [ToolCallingLoop] base
    class (intents/node/toolCallingLoop.ts), which is not part of this
    file. One step of the state machine of the loop: a running loop
    issues one fetch, appends the round and evaluates the stop condition;
    at the iteration limit it stops and marks [maxToolCallsExceeded]
    ([Stop]) or surfaces a confirmation and suspends ([Confirm]); a
    suspended loop moves only on the user's decision; a stopped loop does
    nothing. [extension] is the number of further rounds an accepted
    confirmation grants, which the specification leaves open. *)
Definition step (o : IDefaultToolLoopOptions) (extension : nat) (transport : Transport)
    (decision : option Decision) (s : State) : State :=
  match phase s with
  | Stopped => s
  | AwaitingConfirmation =>
      match decision with
      | None => s
      | Some Accept =>
          {| phase := Running; toolCallRounds := toolCallRounds s;
             fetches := fetches s; limitInForce := limitInForce s + extension;
             accepted := S (accepted s); exceeded := exceeded s;
             output := output s; lastResponse := lastResponse s |}
      | Some Reject =>
          {| phase := Stopped; toolCallRounds := toolCallRounds s;
             fetches := fetches s; limitInForce := limitInForce s;
             accepted := accepted s; exceeded := exceeded s;
             output := output s; lastResponse := lastResponse s |}
      end
  | Running =>
      let r := transport (toolCallRounds s) in
      let rounds := toolCallRounds s ++ [snd r] in
      if negb (wantsMoreTools r) then
        {| phase := Stopped; toolCallRounds := rounds; fetches := S (fetches s);
           limitInForce := limitInForce s; accepted := accepted s;
           exceeded := exceeded s; output := output s;
           lastResponse := Some (fst r) |}
      else if (limitInForce s <=? length rounds)%nat then
        match onHitToolCallLimit o with
        | ToolCallLimitBehavior.Stop =>
            {| phase := Stopped; toolCallRounds := rounds; fetches := S (fetches s);
               limitInForce := limitInForce s; accepted := accepted s;
               exceeded := true; output := output s;
               lastResponse := Some (fst r) |}
        | ToolCallLimitBehavior.Confirm =>
            {| phase := AwaitingConfirmation; toolCallRounds := rounds;
               fetches := S (fetches s); limitInForce := limitInForce s;
               accepted := accepted s; exceeded := exceeded s;
               output := output s ++ [Confirmation];
               lastResponse := Some (fst r) |}
        end
      else
        {| phase := Running; toolCallRounds := rounds; fetches := S (fetches s);
           limitInForce := limitInForce s; accepted := accepted s;
           exceeded := exceeded s; output := output s;
           lastResponse := Some (fst r) |}
  end.

(** Modelled from the spec: the loop of toolCallingLoop.ts under a
    schedule: at each step, the decision the user has made by then, if any. *)
Fixpoint run (o : IDefaultToolLoopOptions) (extension : nat) (transport : Transport)
    (schedule : list (option Decision)) (s : State) : State :=
  match schedule with
  | [] => s
  | d :: rest => run o extension transport rest (step o extension transport d s)
  end.

(** What holds of every state the loop reaches: one fetch per round, and
    a number of rounds within the limit in force and the confirmations
    accepted so far. *)
Definition bounded (o : IDefaultToolLoopOptions) (extension : nat) (s : State) : Prop :=
  length (toolCallRounds s) = fetches s
  /\ limitInForce s = (toolCallLimit o + accepted s * extension)%nat
  /\ (length (toolCallRounds s) <= limitInForce s + accepted s)%nat
  /\ (phase s = Running ->
      (length (toolCallRounds s) < limitInForce s + accepted s)%nat).

(** Modelled from the spec: the [maxToolCallsExceeded] entry that the loop
    of toolCallingLoop.ts leaves in the result metadata. *)
Definition resultMetadata (s : State) : IResultMetadata :=
  {| md_toolCallRounds := None; md_toolCallResults := None;
     maxToolCallsExceeded := if exceeded s then Some true else None;
     filterReason := None; md_codeBlocks := None; md_summary := None;
     md_renderedUserMessage := None; md_renderedGlobalContext := None |}.

End ToolCallingLoop.

(** ** Test doubles *)

Module Doubles.

Definition anInvocation : IIntentInvocation :=
  {| invocationName := "ask"; hasConfirmationHandler := false;
     hasModifyErrorDetails := false |}.

(** Services that answer from a script: whether the request is a
    cancellation of the tool-call limit, and what the loop returns. *)
Definition scripted (limitCancellation : bool) (loopResult : Exn + IToolCallLoopResult)
    : Services :=
  {| isToolCallLimitCancellation := fun _ => limitCancellation;
     getErrorDetailsFromChatFetchError := fun r _ _ => messageOnly (reason r);
     copilotPlan := fun _ => "free";
     CanceledResult :=
       {| errorDetails := Some (messageOnly "Canceled"); metadata := None |};
     HAS_IGNORED_FILES_MESSAGE := "Some files were ignored.";
     createTelemetryWithId := fun _ => "message-1";
     intent_invoke := fun _ => ret anInvocation;
     confirmationHandler := fun _ _ _ => ret tt;
     modifyErrorDetails := fun _ d _ => d;
     loop_run := fun _ w => (loopResult, w);
     buttonCommands := fun _ => [] |}.

Definition aRequest : ChatRequest :=
  {| prompt := "hello"; attempt := 0; acceptedConfirmationData := None;
     rejectedConfirmationData := None; modeInstructions := None |}.

Definition aHandler : Handler :=
  {| intentId := "unknown"; request := aRequest; location := ChatLocation.Panel;
     documentContext := None;
     handlerOptions :=
       {| maxToolCallIterations := 15; confirmOnMaxToolIterations := None;
          ho_temperature := None; overrideRequestLocation := None;
          hideRateLimitTimeEstimate := None |};
     options := {| co_temperature := 7 # 10;
                   rejectionMessage := "Sorry, I can only help with programming." |} |}.

Definition aFetchResult (k : ChatFetchResponseType.t) : ChatResponse :=
  {| type := k; requestId := "req-42"; serverRequestId := None;
     reason := "reason"; value := ""; category := "hate" |}.

Definition aRound (text : string) (calls : list IToolCall) : IToolCallRound :=
  {| response := text; toolCalls := calls |}.

(** A loop result with a single round without tool calls. *)
Definition aLoopResult (k : ChatFetchResponseType.t) (ignored : bool) : IToolCallLoopResult :=
  {| lr_response := aFetchResult k; lr_round := aRound "" [];
     lr_chatResult := None; hadIgnoredFiles := ignored;
     lr_toolCallRounds := [aRound "" []]; lr_toolCallResults := ∅ |}.

Definition aCall (n : string) : IToolCall :=
  {| tc_id := n; tc_name := "read_file"; tc_arguments := "{}" |}.

(** A transport that always succeeds and always asks for one more tool. *)
Definition eagerTransport : ToolCallingLoop.Transport :=
  fun _ => (aFetchResult ChatFetchResponseType.Success, aRound "working" [aCall "c"]).

Definition loopOptionsAt (base : Q) (k : nat) : IDefaultToolLoopOptions :=
  {| lo_intentId := "unknown"; lo_invocation := anInvocation; toolCallLimit := 15;
     onHitToolCallLimit := ToolCallLimitBehavior.Confirm;
     lo_request :=
       {| prompt := "hello"; attempt := k; acceptedConfirmationData := None;
          rejectedConfirmationData := None; modeInstructions := None |};
     lo_temperature := base; lo_location := ChatLocation.Panel;
     lo_overrideRequestLocation := None |}.

Definition handlerWith (limit : nat) (confirm : option bool) : Handler :=
  {| intentId := "unknown"; request := aRequest; location := ChatLocation.Panel;
     documentContext := None;
     handlerOptions :=
       {| maxToolCallIterations := limit; confirmOnMaxToolIterations := confirm;
          ho_temperature := None; overrideRequestLocation := None;
          hideRateLimitTimeEstimate := None |};
     options := options aHandler |}.

Definition loopOptionsWith (limit : nat) (confirm : option bool)
    : IDefaultToolLoopOptions :=
  loopOptions (handlerWith limit confirm) anInvocation.

(** The services when the loop ends on a fetch result of kind [k]. *)
Definition endingWith (k : ChatFetchResponseType.t) (ignored : bool) : Services :=
  scripted false (inr (aLoopResult k ignored)).

End Doubles.

(** ** Further methods of the handler and of the loop *)

(** *** The names of the messages of a prompt *)

Module Raw.
Inductive ChatRole := System | User | Assistant | Tool.
End Raw.

(** The [name] key of a message: not present, present and undefined, or a
    string. *)
Inductive MessageName := NameAbsent | NameUndefined | NameIs (n : string).

#[global] Instance ChatRole_eq_dec : EqDecision Raw.ChatRole.
Proof. solve_decision. Defined.

#[global] Instance MessageName_eq_dec : EqDecision MessageName.
Proof. solve_decision. Defined.

Record ChatMessage := {
  msg_role : Raw.ChatRole;
  msg_name : MessageName;
  msg_text : string;
}.

Definition isSystemRole (r : Raw.ChatRole) : bool :=
  match r with Raw.System => true | _ => false end.

(** ['name' in m && m.name === id] *)
Definition namedAfter (id : string) (m : ChatMessage) : bool :=
  match msg_name m with
  | NameIs n => String.eqb n id
  | _ => false
  end.

(** [DefaultToolCallingLoop.fixMessageNames], with the intent id of the
    loop options: the messages after the in-place update. *)
Definition fixMessageNames (intentId : string) (messages : list ChatMessage)
    : list ChatMessage :=
  map (fun m =>
         if negb (isSystemRole (msg_role m)) && namedAfter intentId m then
           {| msg_role := msg_role m; msg_name := NameUndefined; msg_text := msg_text m |}
         else m)
      messages.

(** *** Virtual tool calls *)

(** The two members of the prompt context that [_handleVirtualCalls] reads
    and writes. *)
Record PromptContext := {
  ctx_toolCallRounds : option (list IToolCallRound);
  ctx_toolCallResults : option (gmap string LanguageModelToolResult2);
}.

(** [context.toolCallRounds?.at(-1)?.toolCalls || Iterable.empty()] *)
Definition lastRoundCalls (context : PromptContext) : list IToolCall :=
  match ctx_toolCallRounds context with
  | Some rounds =>
      match last rounds with
      | Some round => toolCalls round
      | None => []
      end
  | None => []
  end.

(** [context.toolCallResults?.[id]] *)
Definition contextResult (results : option (gmap string LanguageModelToolResult2))
    (id : string) : option LanguageModelToolResult2 :=
  results ≫= (λ m, m !! id).

Section VirtualCalls.

(** The tool grouping is a collaborator with a state of its own; [didCall]
    answers with the expansion of a virtual tool, if the call was one. *)
Variable Grouping : Type.
Variable didCall :
  Grouping -> nat -> string -> option LanguageModelToolResult2 * Grouping.

(** The body of the loop of [_handleVirtualCalls], for one call. *)
Definition handleVirtualCall (roundCount : nat)
    (state : option (gmap string LanguageModelToolResult2) * Grouping)
    (call : IToolCall) : option (gmap string LanguageModelToolResult2) * Grouping :=
  match contextResult (fst state) (tc_id call) with
  | Some _ => state
  | None =>
      match didCall (snd state) roundCount (tc_name call) with
      | (Some expanded, grouping) =>
          (Some (<[tc_id call := expanded]> (default ∅ (fst state))), grouping)
      | (None, grouping) => (fst state, grouping)
      end
  end.

Definition _handleVirtualCalls (toolGrouping : option Grouping) (context : PromptContext)
    : PromptContext * option Grouping :=
  match toolGrouping with
  | None => (context, None)
  | Some grouping =>
      let final :=
        foldl (handleVirtualCall (length (default [] (ctx_toolCallRounds context))))
              (ctx_toolCallResults context, grouping) (lastRoundCalls context) in
      ({| ctx_toolCallRounds := ctx_toolCallRounds context;
          ctx_toolCallResults := fst final |},
       Some (snd final))
  end.

End VirtualCalls.

(** *** Retrying the buttons of a parallel task *)

(** [retryParallelTaskProcessing(call, attempt)]: the delays, in
    milliseconds, of the timers it sets one after the other, and the tool
    result whose buttons it renders, if it finds one. [visible n] is the
    result of the call that the loop holds when the timer of attempt [n]
    fires. [fuel] bounds the recursion, which the source bounds by
    [maxAttempts]. *)
Fixpoint retrySchedule (fuel attempt : nat)
    (visible : nat -> option LanguageModelToolResult2)
    : list nat * option LanguageModelToolResult2 :=
  match fuel with
  | O => ([], None)
  | S fuel' =>
      let delay := (attempt * 200)%nat in
      match visible attempt with
      | Some toolResult => ([delay], Some toolResult)
      | None =>
          if (attempt <? 5)%nat then
            let rest := retrySchedule fuel' (attempt + 1) visible in
            (delay :: fst rest, snd rest)
          else ([delay], None)
      end
  end.

Definition retryParallelTaskProcessing (attempt : nat)
    (visible : nat -> option LanguageModelToolResult2)
    : list nat * option LanguageModelToolResult2 :=
  retrySchedule (S (5 - attempt)) attempt visible.

(** *** The references of the first prompt *)

Record ChatReferenceOptions := {
  isFromTool : option bool;
  ref_status : option (nat * string);
}.

(** An anchor is a variable, with its name, or a location. *)
Record Anchor := {
  variableName : option string;
  anchorTarget : string;
}.

Record PromptReference := {
  anchor : Anchor;
  ref_options : option ChatReferenceOptions;
}.

Record IBuildPromptResult := {
  references : list PromptReference;
  omittedReferences : list PromptReference;
}.

(** One call [stream.reference2(anchor, undefined, options)]. *)
Record Reference2Call := {
  r2_anchor : Anchor;
  r2_options : option ChatReferenceOptions;
}.

Definition statusOnly (kind : nat) (description : string) : ChatReferenceOptions :=
  {| isFromTool := None; ref_status := Some (kind, description) |}.

Definition partiallySent : ChatReferenceOptions :=
  statusOnly 2
    (l10n_t "Part of this attachment was not sent to the model due to context window limitations." []).

Definition notSent : ChatReferenceOptions :=
  statusOnly 3
    (l10n_t "This attachment was not sent to the model due to context window limitations." []).

(** The names of the variables among the anchors of [refs]. *)
Definition variableNames (refs : list PromptReference) : gset string :=
  foldl (fun acc ref =>
           match variableName (anchor ref) with
           | Some n => {[n]} ∪ acc
           | None => acc
           end) ∅ refs.

(** [reference.options?.isFromTool] *)
Definition fromTool (reference : PromptReference) : bool :=
  match ref_options reference with
  | Some o => default false (isFromTool o)
  | None => false
  end.

Section References.

(** [getUniqueReferences] is imported from the conversation module. *)
Variable getUniqueReferences : list PromptReference -> list PromptReference.

(** [_sendInitialChatReferences]: the calls of [stream.reference2] it makes,
    in order. *)
Definition _sendInitialChatReferences (buildPromptResult : IBuildPromptResult)
    : list Reference2Call :=
  let includedVariableReferences :=
    variableNames (getUniqueReferences (references buildPromptResult)) in
  let ignoredVariableReferences :=
    variableNames (getUniqueReferences (omittedReferences buildPromptResult)) in
  (references buildPromptResult ≫= λ reference,
     let options :=
       match ref_options reference with
       | Some o => Some o
       | None =>
           match variableName (anchor reference) with
           | Some n =>
               if decide (n ∈ ignoredVariableReferences) then Some partiallySent else None
           | None => None
           end
       end in
     if fromTool reference then []
     else [{| r2_anchor := anchor reference; r2_options := options |}])
  ++ (omittedReferences buildPromptResult ≫= λ omittedReference,
        match variableName (anchor omittedReference) with
        | Some n =>
            if decide (n ∈ includedVariableReferences) then []
            else [{| r2_anchor := anchor omittedReference; r2_options := Some notSent |}]
        | None => []
        end).

End References.

Section HandlerButtons.
Context `{Services}.

(** [processParallelTaskButtons], called on each response of the loop: the
    buttons of the calls whose result is there are rendered at once; the
    calls without a result are handed to [retryParallelTaskProcessing] with
    attempt 1, and are what the computation returns. *)
Definition processParallelTaskButtons (calls : list IToolCall)
    (toolCallResults : gmap string LanguageModelToolResult2) : M (list IToolCall) :=
  foldr (fun call k =>
           match toolCallResults !! tc_id call with
           | None => retried <- k ;; ret (call :: retried)
           | Some toolResult => processToolResultForButtons toolResult ;; k
           end)
        (ret []) (filter (fun c => isParallelTaskCall c = true) calls).

End HandlerButtons.

(** The command buttons of the parallel-task calls of [calls] that have a
    result in [toolCallResults], in the order of the calls. *)
Definition renderedButtons `{Services} (calls : list IToolCall)
    (toolCallResults : gmap string LanguageModelToolResult2) : list ChatResponsePart :=
  filter (fun c => isParallelTaskCall c = true) calls ≫= λ call,
    match toolCallResults !! tc_id call with
    | Some toolResult => CommandButton <$> buttonCommands (toolContent toolResult)
    | None => []
    end.

(** [w] with [parts] pushed to the stream, one after the other. *)
Definition pushParts (parts : list ChatResponsePart) (w : World) : World :=
  foldl (fun w p => pushPart p w) w parts.

(** A success that is shown to the user: it has a text or a tool call. *)
Definition displayedSuccess (fetchResult : ChatResponse) (responseMessage : string)
    (rounds : list IToolCallRound) : bool :=
  ChatFetchResponseType.eqb (type fetchResult) ChatFetchResponseType.Success
  && negb (noResponse responseMessage rounds).

(** ** Further test doubles *)

Module Staged.
Import Doubles.

(** Services whose intent invocation, confirmation handler and loop are
    given computations; the request is not a cancellation of the limit. *)
Definition services (invoke : M IIntentInvocation) (confirm : M unit)
    (loop : M IToolCallLoopResult) : Services :=
  {| isToolCallLimitCancellation := fun _ => false;
     getErrorDetailsFromChatFetchError := fun r _ _ => messageOnly (reason r);
     copilotPlan := fun _ => "free";
     CanceledResult :=
       {| errorDetails := Some (messageOnly "Canceled"); metadata := None |};
     HAS_IGNORED_FILES_MESSAGE := "Some files were ignored.";
     createTelemetryWithId := fun _ => "message-1";
     intent_invoke := fun _ => invoke;
     confirmationHandler := fun _ _ _ => confirm;
     modifyErrorDetails := fun _ d _ => d;
     loop_run := fun _ => loop;
     buttonCommands := fun _ => [] |}.

(** The token gets cancelled. *)
Definition cancel (w : World) : World :=
  {| stream := stream w; turnResponses := turnResponses w;
     turnMetadata := turnMetadata w; logs := logs w;
     telemetry := telemetry w; surveyUsage := surveyUsage w;
     isCancellationRequested := true;
     intentInvocations := intentInvocations w; loopRuns := loopRuns w |}.

Definition invokeAndCancel : M IIntentInvocation :=
  fun w => (inr anInvocation, cancel w).

Definition confirming : IIntentInvocation :=
  {| invocationName := "agent"; hasConfirmationHandler := true;
     hasModifyErrorDetails := false |}.

(** A request that accepts a confirmation. *)
Definition answering : Handler :=
  {| intentId := "editAgent";
     request :=
       {| prompt := "Continue"; attempt := 0;
          acceptedConfirmationData := Some ["yes"];
          rejectedConfirmationData := None; modeInstructions := None |};
     location := ChatLocation.Panel; documentContext := None;
     handlerOptions := handlerOptions aHandler; options := options aHandler |}.

(** A loop that stopped at the limit, on a success that asks for a tool. *)
Definition atLimit : IToolCallLoopResult :=
  {| lr_response := aFetchResult ChatFetchResponseType.Success;
     lr_round := aRound "working" [aCall "c"];
     lr_chatResult :=
       Some {| errorDetails := None;
               metadata :=
                 Some {| md_toolCallRounds := None; md_toolCallResults := None;
                         maxToolCallsExceeded := Some true; filterReason := None;
                         md_codeBlocks := None; md_summary := None;
                         md_renderedUserMessage := None;
                         md_renderedGlobalContext := None |} |};
     hadIgnoredFiles := false;
     lr_toolCallRounds := [aRound "looking" [aCall "b"]; aRound "working" [aCall "c"]];
     lr_toolCallResults := ∅ |}.


(** A grouping that expands nothing. *)
Definition noExpansion (g : unit) (n : nat) (name : string)
    : option LanguageModelToolResult2 * unit := (None, g).

Definition aContext : PromptContext :=
  {| ctx_toolCallRounds := Some [aRound "working" [aCall "c"]];
     ctx_toolCallResults := None |}.

End Staged.

(** * Properties *)

(** ** Strings and the message template *)

Lemma append_empty_r (s : string) : s +:+ "" = s.
Proof.
  induction s as [|c s IH]; [reflexivity|].
  change (String c (s +:+ "") = String c s). now rewrite IH.
Qed.

Lemma noResponseMessage (requestId : string) :
  l10n_t "The model unexpectedly did not return a response. Request ID: {0}" [requestId]
  = "The model unexpectedly did not return a response. Request ID: " +:+ requestId.
Proof.
  cbv. repeat f_equal. exact (append_empty_r requestId).
Qed.

Lemma some_round_has_tool_calls (rounds : list IToolCallRound) :
  negb (existsb hasToolCalls rounds)
  = forallb (fun r => (length (toolCalls r) =? 0)%nat) rounds.
Proof.
  induction rounds as [|r rounds IH]; [reflexivity|].
  cbn. rewrite negb_orb, IH. unfold hasToolCalls.
  now rewrite negb_involutive.
Qed.

Lemma no_tool_calls_no_response (rounds : list IToolCallRound) :
  Forall (fun r => toolCalls r = []) rounds ->
  noResponse "" rounds = true.
Proof.
  intros Hall. unfold noResponse. cbn.
  induction Hall as [|r rounds Hr _ IH]; [reflexivity|].
  cbn. now rewrite Hr, IH.
Qed.

(** ** The classifier *)

Section Classifier.
Context `{Services}.

Variables (h : Handler) (responseMessage : string) (chatResult : option ChatResult).
Variables (metadataFragment : IResultMetadata) (messageId : string).
Variables (rounds : list IToolCallRound).

Ltac step_monad :=
  unfold processSuccessfulFetchResult, processOffTopicFetchResult,
    turn_setResponse, stream_markdown, stream_push, sendTelemetry, log,
    bind, ret, gets, modify, throw; cbn.

(** A success is classified by whether there is anything to show. *)
Lemma processSuccessfulFetchResult_cases (requestId : string) (result : ChatResult)
    (w : World) :
  processSuccessfulFetchResult h responseMessage requestId result messageId rounds w
  = if noResponse responseMessage rounds then
      let message :=
        "The model unexpectedly did not return a response. Request ID: " +:+ requestId in
      (inr {| errorDetails := Some (messageOnly message); metadata := None |},
       recordResponse
         {| status := TurnStatus.Error;
            turnMessage := Some {| tm_type := meta; tm_message := message |};
            responseId := Some messageId; responseChatResult := result |} w)
    else
      (inr result,
       appendTelemetry (ModelMessageTelemetry responseMessage requestId (getModeName h))
         (appendTelemetry (MarkAsDisplayed messageId)
            (recordResponse
               {| status := TurnStatus.Success;
                  turnMessage :=
                    Some {| tm_type := model; tm_message := responseMessage |};
                  responseId := Some messageId; responseChatResult := result |} w))).
Proof.
  unfold processSuccessfulFetchResult, noResponse.
  rewrite some_round_has_tool_calls.
  destruct (_ && _); [|reflexivity].
  rewrite noResponseMessage. reflexivity.
Qed.

(** What processResult does on every kind it accepts. *)
Lemma processResult_classified (fetchResult : ChatResponse) (w : World) :
  type fetchResult <> ChatFetchResponseType.InvalidStatefulMarker ->
  exists (result : ChatResult) (recorded : TurnResponse) (w' : World),
    processResult h fetchResult responseMessage chatResult metadataFragment
                  messageId rounds w = (inr result, w')
    /\ turnResponses w' = turnResponses w ++ [recorded]
    /\ expectedStatus (type fetchResult) (noResponse responseMessage rounds)
       = Some (status recorded).
Proof.
  intros Hkind. unfold processResult.
  destruct (type fetchResult) eqn:Ek; try congruence;
    try (step_monad; do 3 eexists; repeat split; reflexivity).
  rewrite processSuccessfulFetchResult_cases. cbn.
  destruct (noResponse responseMessage rounds);
    do 3 eexists; repeat split; reflexivity.
Qed.

(** C1. For every kind of fetch result other than InvalidStatefulMarker,
    processResult returns one chat result, and calls setResponse on the
    turn exactly once: the responses recorded on the turn grow by a single
    entry, whose status is the one the classification table gives. *)
Theorem processResult_records_one_response (fetchResult : ChatResponse) (w : World) :
  type fetchResult <> ChatFetchResponseType.InvalidStatefulMarker ->
  exists (result : ChatResult) (recorded : TurnResponse) (w' : World),
    processResult h fetchResult responseMessage chatResult metadataFragment
                  messageId rounds w = (inr result, w')
    /\ turnResponses w' = turnResponses w ++ [recorded]
    /\ length (turnResponses w') = S (length (turnResponses w))
    /\ expectedStatus (type fetchResult) (noResponse responseMessage rounds)
       = Some (status recorded).
Proof.
  intros Hkind.
  destruct (processResult_classified fetchResult w Hkind)
    as (result & recorded & w' & Hrun & Hturn & Hstatus).
  exists result, recorded, w'. repeat split; try assumption.
  rewrite Hturn, length_app. cbn. lia.
Qed.

(** C7. On a fetch result of kind InvalidStatefulMarker processResult
    throws the error "unreachable" and changes nothing; and it throws on
    no other kind, so the branch is dead when the transport never delivers
    that kind. *)
Theorem processResult_invalid_stateful_marker (fetchResult : ChatResponse) (w : World) :
  (type fetchResult = ChatFetchResponseType.InvalidStatefulMarker ->
   processResult h fetchResult responseMessage chatResult metadataFragment
                 messageId rounds w = (inl (OtherError "unreachable"), w))
  /\ (forall (e : Exn) (w' : World),
        processResult h fetchResult responseMessage chatResult metadataFragment
                      messageId rounds w = (inl e, w') ->
        type fetchResult = ChatFetchResponseType.InvalidStatefulMarker).
Proof.
  split.
  - intros Ek. unfold processResult. now rewrite Ek.
  - intros e w' Hthrow.
    destruct (ChatFetchResponseType.eqb (type fetchResult)
                ChatFetchResponseType.InvalidStatefulMarker) eqn:Eb.
    + destruct (type fetchResult); cbn in Eb; congruence.
    + assert (Hkind : type fetchResult <> ChatFetchResponseType.InvalidStatefulMarker)
        by (intros Ek; rewrite Ek in Eb; discriminate).
      destruct (processResult_classified fetchResult w Hkind)
        as (result & recorded & w'' & Hrun & _).
      congruence.
Qed.

(** C9. On AgentUnauthorized processResult records the status Error with
    no response message and an empty chat result, and returns that empty
    chat result: it has no errorDetails. *)
Theorem processResult_agent_unauthorized (fetchResult : ChatResponse) (w : World) :
  type fetchResult = ChatFetchResponseType.AgentUnauthorized ->
  processResult h fetchResult responseMessage chatResult metadataFragment
                messageId rounds w
  = (inr emptyResult,
     recordResponse
       {| status := TurnStatus.Error; turnMessage := None;
          responseId := Some messageId; responseChatResult := emptyResult |} w)
  /\ errorDetails emptyResult = None.
Proof.
  intros Ek. unfold processResult. rewrite Ek. split; reflexivity.
Qed.

(** C4. A success whose applied text is empty, with no tool call in any
    round, is recorded as an Error whose message carries the request id;
    the chat result returned has that message as its error details. The
    world changes by that one recorded response only: nothing reaches the
    stream or the telemetry, and no tool-call metadata is on the result. *)
Theorem processResult_empty_success (fetchResult : ChatResponse) (w : World) :
  type fetchResult = ChatFetchResponseType.Success ->
  String.length responseMessage = 0%nat ->
  Forall (fun r => toolCalls r = []) rounds ->
  let message :=
    "The model unexpectedly did not return a response. Request ID: "
      +:+ requestId fetchResult in
  processResult h fetchResult responseMessage chatResult metadataFragment
                messageId rounds w
  = (inr {| errorDetails := Some (messageOnly message); metadata := None |},
     recordResponse
       {| status := TurnStatus.Error;
          turnMessage := Some {| tm_type := meta; tm_message := message |};
          responseId := Some messageId;
          responseChatResult := default emptyResult chatResult |} w)
  /\ (exists before after : string,
        message = before +:+ requestId fetchResult +:+ after).
Proof.
  intros Ek Hempty Hcalls message. split.
  - unfold processResult. rewrite Ek, processSuccessfulFetchResult_cases.
    destruct responseMessage; [|discriminate].
    now rewrite (no_tool_calls_no_response rounds Hcalls).
  - exists "The model unexpectedly did not return a response. Request ID: ", "".
    subst message. now rewrite append_empty_r.
Qed.


End Classifier.

(** ** The request *)

Section Request.
Context `{Services}.

Variable h : Handler.

(** C10. When the request cancels the tool-call limit, getResult pushes
    the one friendly markdown message and returns the empty chat result.
    Nothing else happens: the intent is not invoked, the loop is not run,
    no response is set on the turn. *)
Theorem getResult_tool_call_limit_cancellation (w : World) :
  isToolCallLimitCancellation (request h) = true ->
  getResult h w
  = (inr emptyResult,
     pushPart (Markdown "Let me know if there's anything else I can help with!") w)
  /\ intentInvocations (snd (getResult h w)) = intentInvocations w
  /\ loopRuns (snd (getResult h w)) = loopRuns w
  /\ turnResponses (snd (getResult h w)) = turnResponses w.
Proof.
  intros Hcancel. unfold getResult. rewrite Hcancel.
  repeat split; reflexivity.
Qed.

(** The catch block returns for every thrown value. *)
Lemma getResultCatch_returns (err : Exn) (w : World) :
  exists (result : ChatResult) (w' : World), getResultCatch err w = (inr result, w').
Proof.
  destruct err; unfold getResultCatch; cbn; do 2 eexists; reflexivity.
Qed.

(** C6. getResult never throws. When the body of its try block throws
    something that is neither a tool cancellation, nor a cancellation, nor
    an empty-prompt error, getResult logs the error, reports it to the
    telemetry, sets the response of the turn to Error with the message of
    the exception, and returns a chat result whose error details carry
    that message. *)
Theorem getResult_catches_errors (w : World) :
  (exists (result : ChatResult) (w' : World), getResult h w = (inr result, w'))
  /\ (forall (err : Exn) (w' : World),
        isToolCallLimitCancellation (request h) = false ->
        getResultBody h w = (inl err, w') ->
        instanceofToolCallCancelledError err = false ->
        isCancellationError err = false ->
        instanceofEmptyPromptError err = false ->
        let chatResult :=
          {| errorDetails := Some (messageOnly (exnMessage err)); metadata := None |} in
        getResult h w
        = (inr chatResult,
           recordResponse
             {| status := TurnStatus.Error;
                turnMessage := Some {| tm_type := meta; tm_message := exnMessage err |};
                responseId := None; responseChatResult := chatResult |}
             (appendTelemetry (GHTelemetryException err "Error")
                (appendLog (LogError err) w')))).
Proof.
  split.
  - unfold getResult.
    destruct (isToolCallLimitCancellation (request h)).
    + do 2 eexists. reflexivity.
    + unfold tryCatch.
      destruct (getResultBody h w) as [[err | result] w'].
      * apply getResultCatch_returns.
      * do 2 eexists. reflexivity.
  - intros err w' Hlimit Hbody Htool Hcancel Hempty chatResult.
    unfold getResult, tryCatch. rewrite Hlimit, Hbody.
    unfold getResultCatch. rewrite Htool, Hcancel, Hempty. reflexivity.
Qed.

(** An off-topic result through the statements that follow the loop. *)
Lemma resultOfLoop_offTopic (intentInvocation : IIntentInvocation)
    (resultDetails : IToolCallLoopResult) (w : World) :
  type (lr_response resultDetails) = ChatFetchResponseType.OffTopic ->
  exists w' : World,
    resultOfLoop h intentInvocation resultDetails w = (inr emptyResult, w')
    /\ stream w'
       = stream w ++ Markdown (rejectionMessage (options h))
           :: (if hadIgnoredFiles resultDetails
               then [Markdown HAS_IGNORED_FILES_MESSAGE] else [])
    /\ exists responseId : option string,
         turnResponses w'
         = turnResponses w ++
             [{| status := TurnStatus.OffTopic;
                 turnMessage :=
                   Some {| tm_type := offtopic_detection;
                           tm_message := rejectionMessage (options h) |};
                 responseId := responseId; responseChatResult := emptyResult |}].
Proof.
  intros Ek. unfold resultOfLoop, processResult. rewrite Ek.
  unfold processOffTopicFetchResult, bind, ret, gets, signalUsage, stream_markdown,
    stream_push, turn_setResponse, modify. cbn.
  destruct (hadIgnoredFiles resultDetails); cbn.
  - eexists. split; [reflexivity|]. cbn. split.
    + now rewrite <- app_assoc.
    + eexists. reflexivity.
  - eexists. split; [reflexivity|]. cbn. split; [reflexivity|].
    eexists. reflexivity.
Qed.

(** C5, as the code has it. On an off-topic fetch result processResult
    pushes the configured rejection message, and nothing else, to the
    stream, records the status OffTopic with that message as the response,
    and returns the empty chat result. The statements of getResult that
    follow the loop then return that empty result, and push the notice on
    ignored files after the rejection message when the loop reported
    ignored files, and nothing more when it did not. *)
Theorem offTopic_rejection (fetchResult : ChatResponse) (responseMessage : string)
    (chatResult : option ChatResult) (metadataFragment : IResultMetadata)
    (messageId : string) (rounds : list IToolCallRound)
    (intentInvocation : IIntentInvocation) (resultDetails : IToolCallLoopResult)
    (w : World) :
  (type fetchResult = ChatFetchResponseType.OffTopic ->
   processResult h fetchResult responseMessage chatResult metadataFragment
                 messageId rounds w
   = (inr emptyResult,
      recordResponse
        {| status := TurnStatus.OffTopic;
           turnMessage :=
             Some {| tm_type := offtopic_detection;
                     tm_message := rejectionMessage (options h) |};
           responseId := Some messageId; responseChatResult := emptyResult |}
        (pushPart (Markdown (rejectionMessage (options h))) w)))
  /\ (type (lr_response resultDetails) = ChatFetchResponseType.OffTopic ->
      exists w' : World,
        resultOfLoop h intentInvocation resultDetails w = (inr emptyResult, w')
        /\ stream w'
           = stream w ++ Markdown (rejectionMessage (options h))
               :: (if hadIgnoredFiles resultDetails
                   then [Markdown HAS_IGNORED_FILES_MESSAGE] else [])
        /\ exists responseId : option string,
             turnResponses w'
             = turnResponses w ++
                 [{| status := TurnStatus.OffTopic;
                     turnMessage :=
                       Some {| tm_type := offtopic_detection;
                               tm_message := rejectionMessage (options h) |};
                     responseId := responseId;
                     responseChatResult := emptyResult |}]).
Proof.
  split.
  - intros Ek. unfold processResult. now rewrite Ek.
  - apply resultOfLoop_offTopic.
Qed.

End Request.

(** ** Running the loop *)

Section Runner.
Context `{Services}.

Lemma extractAndRenderButtons_streamOnly (content : string) (w : World) :
  exists w' : World,
    extractAndRenderButtons content w = (inr tt, w') /\ streamOnly w w'.
Proof.
  unfold extractAndRenderButtons.
  generalize (buttonCommands content). intros commands. revert w.
  match goal with |- context [foldr ?f _ _] => set (push := f) end.
  induction commands as [|c commands IH]; intros w.
  - exists w. repeat split.
  - destruct (IH (pushPart (CommandButton c) w)) as (w' & Hrun & Ht & Hr & Hm).
    exists w'. split; [exact Hrun|]. repeat split; assumption.
Qed.

Lemma processPostLoopParallelTaskButtons_streamOnly (rounds : list IToolCallRound)
    (results : gmap string LanguageModelToolResult2) (w : World) :
  exists w' : World,
    processPostLoopParallelTaskButtons rounds results w = (inr tt, w')
    /\ streamOnly w w'.
Proof.
  unfold processPostLoopParallelTaskButtons.
  generalize (concat (map (fun round => filter (fun c => isParallelTaskCall c = true)
                                               (toolCalls round)) rounds)).
  intros calls. revert w.
  match goal with |- context [foldr ?f _ _] => set (render := f) end.
  induction calls as [|call calls IH]; intros w.
  - exists w. repeat split.
  - change (foldr render (ret tt) (call :: calls) w)
      with (render call (foldr render (ret tt) calls) w).
    unfold render at 1.
    destruct (results !! tc_id call) as [toolResult|]; [|apply IH].
    unfold bind at 1, processToolResultForButtons.
    destruct (extractAndRenderButtons_streamOnly (toolContent toolResult) w)
      as (w1 & Hrun1 & Ht1 & Hr1 & Hm1).
    rewrite Hrun1.
    destruct (IH w1) as (w' & Hrun & Ht & Hr & Hm).
    exists w'. split; [exact Hrun|]. repeat split; congruence.
Qed.

(** When the loop result carries the maxToolCallsExceeded mark, the handler
    reports the outcome maxToolCalls. *)
Lemma runWithToolCalling_reports_limit (h : Handler) (intentInvocation : IIntentInvocation)
    (result : IToolCallLoopResult) (w w1 : World) :
  loop_run (loopOptions h intentInvocation) (withLoopRun w) = (inr result, w1) ->
  metadataMaxToolCallsExceeded (default emptyResult (lr_chatResult result)) = true ->
  exists (r : IToolCallLoopResult) (w' : World),
    runWithToolCalling h intentInvocation w = (inr r, w')
    /\ ToolCallingTelemetry (lr_toolCallRounds result) OutcomeMaxToolCalls
       ∈ telemetry w'.
Proof.
  intros Hloop Hmark. unfold runWithToolCalling.
  unfold bind at 1. unfold countLoopRun, modify at 1. cbn.
  unfold bind at 1. rewrite Hloop.
  unfold bind at 1. unfold gets at 1. cbn.
  rewrite Hmark.
  match goal with
  | |- context [bind ?first _ w1] =>
      assert (Hfirst : exists w2 : World, first w1 = (inr tt, w2))
        by (destruct (_ || _); eexists; reflexivity)
  end.
  destruct Hfirst as (w2 & Hfirst).
  unfold bind at 1. rewrite Hfirst.
  unfold bind at 1, sendToolCallingTelemetry, sendTelemetry, modify.
  destruct (processPostLoopParallelTaskButtons_streamOnly
              (lr_toolCallRounds result) (lr_toolCallResults result)
              (appendTelemetry
                 (ToolCallingTelemetry (lr_toolCallRounds result) OutcomeMaxToolCalls) w2))
    as (w3 & Hbuttons & Ht & _).
  unfold bind at 1. rewrite Hbuttons.
  do 2 eexists. split; [reflexivity|].
  cbn. rewrite Ht. cbn. apply elem_of_app. right. apply list_elem_of_singleton.
  reflexivity.
Qed.
End Runner.

(** ** The temperature of a request *)

Section Temperature.

Variable o : IDefaultToolLoopOptions.

Let base : Q := lo_temperature o.
Let k : nat := attempt (lo_request o).

Lemma calculateTemperature_first_attempt :
  k = 0%nat -> calculateTemperature o = base.
Proof.
  unfold calculateTemperature, k, base. intros ->. reflexivity.
Qed.

Lemma calculateTemperature_retry :
  (0 < k)%nat ->
  calculateTemperature o = Qmin (base * inject_Z (Z.of_nat (k + 1)))%Q 2%Q.
Proof.
  unfold calculateTemperature, k, base. intros Hk.
  destruct (Nat.ltb_spec 0 (attempt (lo_request o))); [reflexivity | lia].
Qed.

(** C3, as the code has it. On an attempt k > 0 the temperature is the
    minimum of base * (k + 1) and the ceiling 2. On the first attempt
    (k = 0) it is the base temperature as configured, with no clamping;
    this is the minimum of base * 1 and 2 when the base is at most 2. *)
Theorem calculateTemperature_scaled :
  (k = 0%nat -> calculateTemperature o = base)
  /\ ((0 < k)%nat ->
      calculateTemperature o = Qmin (base * inject_Z (Z.of_nat (k + 1)))%Q 2%Q)
  /\ ((base <= 2)%Q ->
      (calculateTemperature o == Qmin (base * inject_Z (Z.of_nat (k + 1))) 2)%Q).
Proof.
  split; [exact calculateTemperature_first_attempt|].
  split; [exact calculateTemperature_retry|].
  intros Hbase. destruct (Nat.eq_dec k 0) as [Hk | Hk].
  - rewrite (calculateTemperature_first_attempt Hk), Hk. cbn.
    rewrite Qmult_1_r. symmetry. now apply Q.min_l.
  - rewrite calculateTemperature_retry by lia. reflexivity.
Qed.

End Temperature.

(** ** The loop at its iteration limit *)

Section IterationLimit.
Import ToolCallingLoop.

Variables (o : IDefaultToolLoopOptions) (extension : nat) (transport : Transport).

Lemma bounded_initial : (0 < toolCallLimit o)%nat -> bounded o extension (initial o).
Proof.
  intros Hpos. unfold bounded, initial. cbn. repeat split; lia.
Qed.

Ltac close_bounded :=
  unfold bounded; cbn; rewrite ?length_app; cbn;
  repeat split; try lia; try (intros ?; first [discriminate | lia]).

Lemma bounded_step (d : option Decision) (s : State) :
  bounded o extension s -> bounded o extension (step o extension transport d s).
Proof.
  intros (Hfetch & Hlimit & Hle & Hlt). unfold step.
  destruct (phase s) eqn:Ephase.
  - specialize (Hlt eq_refl).
    destruct (negb (wantsMoreTools (transport (toolCallRounds s)))).
    + close_bounded.
    + destruct (Nat.leb_spec (limitInForce s)
                  (length (toolCallRounds s ++ [snd (transport (toolCallRounds s))])))
        as [Hhit | Hfree]; rewrite length_app in *; cbn in *.
      * destruct (onHitToolCallLimit o); close_bounded.
      * close_bounded.
  - destruct d as [[|]|].
    + close_bounded.
    + close_bounded.
    + unfold bounded. repeat split; try assumption. intros Hrun. congruence.
  - unfold bounded. repeat split; try assumption. intros Hrun. congruence.
Qed.

Lemma bounded_run (schedule : list (option Decision)) (s : State) :
  bounded o extension s -> bounded o extension (run o extension transport schedule s).
Proof.
  revert s. induction schedule as [|d schedule IH]; intros s Hs; [exact Hs|].
  cbn. apply IH, bounded_step, Hs.
Qed.

(** A stopped loop stays as it is. *)
Lemma stopped_run (schedule : list (option Decision)) (s : State) :
  phase s = Stopped -> run o extension transport schedule s = s.
Proof.
  intros Hs. induction schedule as [|d schedule IH]; [reflexivity|].
  cbn. unfold step at 1. rewrite Hs. exact IH.
Qed.

(** A suspended loop stays as it is while no decision arrives. *)
Lemma suspended_run (n : nat) (s : State) :
  phase s = AwaitingConfirmation ->
  run o extension transport (replicate n None) s = s.
Proof.
  intros Hs. induction n as [|n IH]; [reflexivity|].
  cbn. unfold step at 1. rewrite Hs. exact IH.
Qed.

(** The step that takes the round count to the limit. *)
Lemma step_at_limit (d : option Decision) (s : State) :
  phase s = Running ->
  wantsMoreTools (transport (toolCallRounds s)) = true ->
  (limitInForce s <= S (length (toolCallRounds s)))%nat ->
  step o extension transport d s
  = let r := transport (toolCallRounds s) in
    match onHitToolCallLimit o with
    | ToolCallLimitBehavior.Stop =>
        {| phase := Stopped; toolCallRounds := toolCallRounds s ++ [snd r];
           fetches := S (fetches s); limitInForce := limitInForce s;
           accepted := accepted s; exceeded := true; output := output s;
           lastResponse := Some (fst r) |}
    | ToolCallLimitBehavior.Confirm =>
        {| phase := AwaitingConfirmation; toolCallRounds := toolCallRounds s ++ [snd r];
           fetches := S (fetches s); limitInForce := limitInForce s;
           accepted := accepted s; exceeded := exceeded s;
           output := output s ++ [Confirmation];
           lastResponse := Some (fst r) |}
    end.
Proof.
  intros Hphase Hmore Hhit. unfold step. rewrite Hphase, Hmore. cbn.
  rewrite length_app. cbn.
  destruct (Nat.leb_spec (limitInForce s) (length (toolCallRounds s) + 1)); [|lia].
  reflexivity.
Qed.

End IterationLimit.

(** C2. The handler asks the loop to stop at the limit exactly when
    confirmOnMaxToolIterations is false, and to confirm otherwise, with
    maxToolCallIterations as the limit, and it reports the outcome
    maxToolCalls when the loop result carries the maxToolCallsExceeded
    mark. For a positive limit: the loop
    issues one fetch per round, and its rounds never exceed the limit before
    a confirmation has been accepted. On the round that reaches the limit
    while the model still asks for tools, the loop under Stop is stopped
    with maxToolCallsExceeded set in the metadata and never fetches again;
    under Confirm it pushes a confirmation and stays suspended until a
    decision arrives: a rejection stops it without a further fetch, an
    acceptance lets it run on. *)
Theorem loop_at_iteration_limit `{Services} (h : Handler)
    (intentInvocation : IIntentInvocation)
    (extension : nat) (transport : ToolCallingLoop.Transport) :
  let o := loopOptions h intentInvocation in
  let step := ToolCallingLoop.step o extension transport in
  let run := ToolCallingLoop.run o extension transport in
  (0 < maxToolCallIterations (handlerOptions h))%nat ->
  (toolCallLimit o = maxToolCallIterations (handlerOptions h)
   /\ (onHitToolCallLimit o = ToolCallLimitBehavior.Stop
       <-> confirmOnMaxToolIterations (handlerOptions h) = Some false)
   /\ (forall (result : IToolCallLoopResult) (w w1 : World),
         loop_run o (withLoopRun w) = (inr result, w1) ->
         metadataMaxToolCallsExceeded (default emptyResult (lr_chatResult result)) = true ->
         exists (r : IToolCallLoopResult) (w' : World),
           runWithToolCalling h intentInvocation w = (inr r, w')
           /\ ToolCallingTelemetry (lr_toolCallRounds result) OutcomeMaxToolCalls
              ∈ telemetry w'))
  /\ (forall schedule : list (option ToolCallingLoop.Decision),
        let s := run schedule (ToolCallingLoop.initial o) in
        length (ToolCallingLoop.toolCallRounds s) = ToolCallingLoop.fetches s
        /\ (length (ToolCallingLoop.toolCallRounds s)
            <= toolCallLimit o + ToolCallingLoop.accepted s * S extension)%nat
        /\ (ToolCallingLoop.accepted s = 0%nat ->
            (length (ToolCallingLoop.toolCallRounds s) <= toolCallLimit o)%nat))
  /\ (forall (s : ToolCallingLoop.State) (d : option ToolCallingLoop.Decision),
        ToolCallingLoop.phase s = ToolCallingLoop.Running ->
        ToolCallingLoop.wantsMoreTools (transport (ToolCallingLoop.toolCallRounds s)) = true ->
        (ToolCallingLoop.limitInForce s <= S (length (ToolCallingLoop.toolCallRounds s)))%nat ->
        let s' := step d s in
        ToolCallingLoop.fetches s' = S (ToolCallingLoop.fetches s)
        /\ match onHitToolCallLimit o with
           | ToolCallLimitBehavior.Stop =>
               ToolCallingLoop.phase s' = ToolCallingLoop.Stopped
               /\ maxToolCallsExceeded (ToolCallingLoop.resultMetadata s') = Some true
               /\ forall schedule, run schedule s' = s'
           | ToolCallLimitBehavior.Confirm =>
               ToolCallingLoop.phase s' = ToolCallingLoop.AwaitingConfirmation
               /\ ToolCallingLoop.output s' = ToolCallingLoop.output s ++ [Confirmation]
               /\ (forall n : nat, run (replicate n None) s' = s')
               /\ (let rejected := step (Some ToolCallingLoop.Reject) s' in
                   ToolCallingLoop.phase rejected = ToolCallingLoop.Stopped
                   /\ ToolCallingLoop.toolCallRounds rejected
                      = ToolCallingLoop.toolCallRounds s'
                   /\ forall schedule,
                        ToolCallingLoop.fetches (run schedule rejected)
                        = ToolCallingLoop.fetches s')
               /\ (let resumed := step (Some ToolCallingLoop.Accept) s' in
                   ToolCallingLoop.phase resumed = ToolCallingLoop.Running
                   /\ ToolCallingLoop.accepted resumed = S (ToolCallingLoop.accepted s')
                   /\ ToolCallingLoop.fetches resumed = ToolCallingLoop.fetches s')
           end).
Proof.
  intros o step run Hpos. split; [|split].
  - split; [reflexivity|]. split.
    + subst o. unfold loopOptions. cbn.
      destruct (confirmOnMaxToolIterations (handlerOptions h)) as [[|]|];
        split; congruence.
    + intros result w w1. apply runWithToolCalling_reports_limit.
  - intros schedule s.
    assert (Hb : ToolCallingLoop.bounded o extension s).
    { apply bounded_run, bounded_initial. exact Hpos. }
    destruct Hb as (Hfetch & Hlimit & Hle & _).
    split; [exact Hfetch|]. split; [nia|]. intros Hzero. rewrite Hzero in *. lia.
  - intros s d Hphase Hmore Hhit s'.
    assert (Hs' : s' = ToolCallingLoop.step o extension transport d s) by reflexivity.
    rewrite (step_at_limit o extension transport d s Hphase Hmore Hhit) in Hs'.
    cbn zeta in Hs'.
    destruct (onHitToolCallLimit o); rewrite Hs'.
    + split; [reflexivity|]. split; [reflexivity|]. split; [reflexivity|].
      split; [intros n; now apply suspended_run|]. split.
      * split; [reflexivity|]. split; [reflexivity|].
        intros schedule. subst run step. now rewrite stopped_run.
      * repeat split.
    + split; [reflexivity|]. split; [reflexivity|]. split; [reflexivity|].
      intros schedule. now apply stopped_run.
Qed.

(** ** The statements at concrete inputs *)

Module Examples.
Import Doubles.

Lemma canceled_recorded_once :
  type (aFetchResult ChatFetchResponseType.Canceled)
    <> ChatFetchResponseType.InvalidStatefulMarker
  /\ exists (result : ChatResult) (recorded : TurnResponse) (w' : World),
       @processResult (scripted false (inl (OtherError "unused"))) aHandler
         (aFetchResult ChatFetchResponseType.Canceled) "" None emptyMetadata
         "message-1" [] initialWorld = (inr result, w')
       /\ turnResponses w' = turnResponses initialWorld ++ [recorded]
       /\ length (turnResponses w') = S (length (turnResponses initialWorld))
       /\ expectedStatus ChatFetchResponseType.Canceled (noResponse "" [])
          = Some (status recorded).
Proof.
  split; [discriminate|].
  apply (@processResult_records_one_response
           (scripted false (inl (OtherError "unused"))) aHandler "" None
           emptyMetadata "message-1" [] (aFetchResult ChatFetchResponseType.Canceled)
           initialWorld).
  discriminate.
Defined.

Lemma invalid_marker_throws :
  @processResult (scripted false (inl (OtherError "unused"))) aHandler
    (aFetchResult ChatFetchResponseType.InvalidStatefulMarker) "" None emptyMetadata
    "message-1" [] initialWorld
  = (inl (OtherError "unreachable"), initialWorld).
Proof.
  apply (proj1 (@processResult_invalid_stateful_marker
                  (scripted false (inl (OtherError "unused"))) aHandler "" None
                  emptyMetadata "message-1" []
                  (aFetchResult ChatFetchResponseType.InvalidStatefulMarker)
                  initialWorld)).
  reflexivity.
Defined.

Lemma agent_unauthorized_silent :
  @processResult (scripted false (inl (OtherError "unused"))) aHandler
    (aFetchResult ChatFetchResponseType.AgentUnauthorized) "" None emptyMetadata
    "message-1" [] initialWorld
  = (inr emptyResult,
     recordResponse
       {| status := TurnStatus.Error; turnMessage := None;
          responseId := Some "message-1"; responseChatResult := emptyResult |}
       initialWorld).
Proof.
  apply (proj1 (@processResult_agent_unauthorized
                  (scripted false (inl (OtherError "unused"))) aHandler "" None
                  emptyMetadata "message-1" []
                  (aFetchResult ChatFetchResponseType.AgentUnauthorized)
                  initialWorld eq_refl)).
Defined.

Lemma empty_success_req_42 :
  @processResult (scripted false (inl (OtherError "unused"))) aHandler
    (aFetchResult ChatFetchResponseType.Success) "" None emptyMetadata
    "message-1" [aRound "" []] initialWorld
  = (inr {| errorDetails :=
              Some (messageOnly
                      "The model unexpectedly did not return a response. Request ID: req-42");
            metadata := None |},
     recordResponse
       {| status := TurnStatus.Error;
          turnMessage :=
            Some {| tm_type := meta;
                    tm_message :=
                      "The model unexpectedly did not return a response. Request ID: req-42" |};
          responseId := Some "message-1"; responseChatResult := emptyResult |}
       initialWorld).
Proof.
  apply (proj1 (@processResult_empty_success
                  (scripted false (inl (OtherError "unused"))) aHandler "" None
                  emptyMetadata "message-1" [aRound "" []]
                  (aFetchResult ChatFetchResponseType.Success) initialWorld
                  eq_refl eq_refl
                  ltac:(repeat constructor))).
Defined.



Lemma limit_cancellation_friendly :
  @getResult (scripted true (inl (OtherError "unused"))) aHandler initialWorld
  = (inr emptyResult,
     pushPart (Markdown "Let me know if there's anything else I can help with!")
              initialWorld).
Proof.
  apply (proj1 (@getResult_tool_call_limit_cancellation
                  (scripted true (inl (OtherError "unused"))) aHandler initialWorld
                  eq_refl)).
Defined.

(** A loop that hands back an InvalidStatefulMarker result: the assertion
    of processResult fires, and getResult turns it into an Error turn. *)
Lemma unreachable_caught :
  exists w' : World,
    @getResultBody (endingWith ChatFetchResponseType.InvalidStatefulMarker false)
      aHandler initialWorld = (inl (OtherError "unreachable"), w')
    /\ @getResult (endingWith ChatFetchResponseType.InvalidStatefulMarker false)
         aHandler initialWorld
       = (inr {| errorDetails := Some (messageOnly "unreachable"); metadata := None |},
          recordResponse
            {| status := TurnStatus.Error;
               turnMessage := Some {| tm_type := meta; tm_message := "unreachable" |};
               responseId := None;
               responseChatResult :=
                 {| errorDetails := Some (messageOnly "unreachable");
                    metadata := None |} |}
            (appendTelemetry (GHTelemetryException (OtherError "unreachable") "Error")
               (appendLog (LogError (OtherError "unreachable")) w'))).
Proof.
  eexists. split; [vm_compute; reflexivity|].
  apply (proj2 (@getResult_catches_errors
                  (endingWith ChatFetchResponseType.InvalidStatefulMarker false)
                  aHandler initialWorld) (OtherError "unreachable"));
    reflexivity.
Defined.

Lemma rejection_alone :
  exists w' : World,
    @resultOfLoop (endingWith ChatFetchResponseType.OffTopic false) aHandler
      anInvocation (aLoopResult ChatFetchResponseType.OffTopic false) initialWorld
    = (inr emptyResult, w')
    /\ stream w' = [Markdown "Sorry, I can only help with programming."].
Proof.
  destruct (proj2 (@offTopic_rejection
                     (endingWith ChatFetchResponseType.OffTopic false) aHandler
                     (aFetchResult ChatFetchResponseType.OffTopic) "" None
                     emptyMetadata "message-1" [] anInvocation
                     (aLoopResult ChatFetchResponseType.OffTopic false) initialWorld)
                  eq_refl)
    as (w' & Hrun & Hstream & _).
  exists w'. split; [exact Hrun | exact Hstream].
Defined.

(** With ignored files the stream receives a second markdown part after
    the rejection message: the rejection is not the only content. *)
Lemma ignored_files_after_rejection :
  type (lr_response (aLoopResult ChatFetchResponseType.OffTopic true))
    = ChatFetchResponseType.OffTopic
  /\ fst (@getResult (endingWith ChatFetchResponseType.OffTopic true)
            aHandler initialWorld) = inr emptyResult
  /\ map status
       (turnResponses
          (snd (@getResult (endingWith ChatFetchResponseType.OffTopic true)
                  aHandler initialWorld))) = [TurnStatus.OffTopic]
  /\ stream (snd (@getResult (endingWith ChatFetchResponseType.OffTopic true)
                    aHandler initialWorld))
     = [Markdown (rejectionMessage (options aHandler));
        Markdown "Some files were ignored."]
  /\ stream (snd (@getResult (endingWith ChatFetchResponseType.OffTopic true)
                    aHandler initialWorld))
     <> [Markdown (rejectionMessage (options aHandler))].
Proof.
  repeat split; try reflexivity.
  vm_compute. discriminate.
Qed.

Lemma temperature_examples :
  calculateTemperature (loopOptionsAt (7 # 10) 0) = (7 # 10)%Q
  /\ calculateTemperature (loopOptionsAt (7 # 10) 2) = 2%Q
  /\ (calculateTemperature (loopOptionsAt (7 # 10) 1) == 14 # 10)%Q.
Proof.
  split; [|split].
  - apply (proj1 (calculateTemperature_scaled (loopOptionsAt (7 # 10) 0))).
    reflexivity.
  - rewrite (proj1 (proj2 (calculateTemperature_scaled (loopOptionsAt (7 # 10) 2))));
      [reflexivity | cbn; lia].
  - rewrite (proj2 (proj2 (calculateTemperature_scaled (loopOptionsAt (7 # 10) 1))));
      [reflexivity | cbn; discriminate].
Defined.

(** On the first attempt with a base above the ceiling the temperature
    is the base, 3, and not min (3 * 1, 2) = 2. *)
Lemma first_attempt_above_ceiling :
  calculateTemperature (loopOptionsAt 3 0) = 3%Q
  /\ (Qmin (3 * inject_Z (Z.of_nat (0 + 1))) 2 == 2)%Q
  /\ ~ (calculateTemperature (loopOptionsAt 3 0)
        == Qmin (lo_temperature (loopOptionsAt 3 0)
                 * inject_Z (Z.of_nat (attempt (lo_request (loopOptionsAt 3 0)) + 1))) 2)%Q.
Proof.
  split; [reflexivity|]. split; [reflexivity|].
  vm_compute. discriminate.
Qed.

Lemma limit_of_three_stops :
  (0 < 3)%nat
  /\ (length (ToolCallingLoop.toolCallRounds
                (ToolCallingLoop.run (loopOptionsWith 3 (Some false)) 0 eagerTransport
                   [None; None; None; None; None]
                   (ToolCallingLoop.initial (loopOptionsWith 3 (Some false)))))
      <= 3)%nat
  /\ onHitToolCallLimit (loopOptionsWith 3 (Some false)) = ToolCallLimitBehavior.Stop.
Proof.
  destruct (@loop_at_iteration_limit (scripted false (inl (OtherError "unused")))
              (handlerWith 3 (Some false)) anInvocation 0
              eagerTransport ltac:(cbn; lia))
    as ((_ & Hstop & _) & Hbound & _).
  split; [lia|]. split.
  - apply (Hbound [None; None; None; None; None]). reflexivity.
  - apply Hstop. reflexivity.
Defined.

End Examples.

(** * Further properties *)

(** ** What the classifier touches *)

Section ClassifierEffects.
Context `{Services}.

Variables (h : Handler) (responseMessage : string) (chatResult : option ChatResult).
Variables (metadataFragment : IResultMetadata) (messageId : string).
Variables (rounds : list IToolCallRound).

Ltac run_classifier :=
  unfold processOffTopicFetchResult, turn_setResponse, stream_markdown,
    stream_push, sendTelemetry, log, bind, ret, gets, modify, throw; cbn.

(** processResult writes to the stream on an off-topic result only, and
    then the rejection message and nothing else; on every other kind, the
    throwing one included, the stream is as it was. *)
Theorem processResult_stream (fetchResult : ChatResponse) (w : World) :
  stream (snd (processResult h fetchResult responseMessage chatResult
                             metadataFragment messageId rounds w))
  = stream w ++
      (if ChatFetchResponseType.eqb (type fetchResult) ChatFetchResponseType.OffTopic
       then [Markdown (rejectionMessage (options h))] else []).
Proof.
  unfold processResult.
  destruct (type fetchResult) eqn:Ek; cbn;
    try (run_classifier; now rewrite ?app_nil_r).
  rewrite processSuccessfulFetchResult_cases.
  destruct (noResponse responseMessage rounds); cbn; now rewrite app_nil_r.
Qed.

(** processResult sends telemetry for a displayed success only: the mark
    that the message was displayed, then the model message. No failure, and
    no success without a response, sends any; the log, the metadata of the
    turn and the survey are never touched. *)
Theorem processResult_telemetry (fetchResult : ChatResponse) (w : World) :
  let w' := snd (processResult h fetchResult responseMessage chatResult
                               metadataFragment messageId rounds w) in
  telemetry w'
  = telemetry w ++
      (if displayedSuccess fetchResult responseMessage rounds
       then [MarkAsDisplayed messageId;
             ModelMessageTelemetry responseMessage (requestId fetchResult) (getModeName h)]
       else [])
  /\ logs w' = logs w
  /\ turnMetadata w' = turnMetadata w
  /\ surveyUsage w' = surveyUsage w.
Proof.
  unfold displayedSuccess, processResult.
  destruct (type fetchResult) eqn:Ek; cbn;
    try (run_classifier; now rewrite ?app_nil_r).
  rewrite processSuccessfulFetchResult_cases.
  destruct (noResponse responseMessage rounds); cbn.
  - now rewrite app_nil_r.
  - now rewrite <- app_assoc.
Qed.

(** The chat result that processResult records on the turn is the one it
    returns, under the message id as response id, except for a success
    without a response: there the incoming chat result is recorded, and the
    result returned is a fresh one without metadata. *)
Theorem processResult_recorded_result (fetchResult : ChatResponse) (w : World) :
  type fetchResult <> ChatFetchResponseType.InvalidStatefulMarker ->
  exists (result : ChatResult) (recorded : TurnResponse),
    processResult h fetchResult responseMessage chatResult metadataFragment
                  messageId rounds w
    = (inr result,
       snd (processResult h fetchResult responseMessage chatResult metadataFragment
                          messageId rounds w))
    /\ last (turnResponses
               (snd (processResult h fetchResult responseMessage chatResult
                                   metadataFragment messageId rounds w)))
       = Some recorded
    /\ responseId recorded = Some messageId
    /\ if ChatFetchResponseType.eqb (type fetchResult) ChatFetchResponseType.Success
          && noResponse responseMessage rounds
       then responseChatResult recorded = default emptyResult chatResult
            /\ metadata result = None
       else responseChatResult recorded = result.
Proof.
  intros Hkind. unfold processResult.
  destruct (type fetchResult) eqn:Ek; try congruence; cbn;
    try (run_classifier; do 2 eexists; rewrite last_snoc; repeat split; reflexivity).
  rewrite processSuccessfulFetchResult_cases.
  destruct (noResponse responseMessage rounds); cbn;
    do 2 eexists; rewrite last_snoc; repeat split; reflexivity.
Qed.

(** A filtered response records its category as the filter reason; a
    filtered prompt records the reason "prompt" whatever category the fetch
    result carries. Both keep the rounds and the tool results of the
    metadata fragment, and set the status of their own kind. *)
Theorem processResult_filter_reason (fetchResult : ChatResponse) (w : World) :
  type fetchResult = ChatFetchResponseType.Filtered
  \/ type fetchResult = ChatFetchResponseType.PromptFiltered ->
  let prompt :=
    ChatFetchResponseType.eqb (type fetchResult) ChatFetchResponseType.PromptFiltered in
  exists (result : ChatResult) (md : IResultMetadata) (w' : World),
    processResult h fetchResult responseMessage chatResult metadataFragment
                  messageId rounds w = (inr result, w')
    /\ metadata result = Some md
    /\ filterReason md
       = Some (if prompt then FilterReason_Prompt else category fetchResult)
    /\ md_toolCallRounds md = md_toolCallRounds metadataFragment
    /\ md_toolCallResults md = md_toolCallResults metadataFragment
    /\ maxToolCallsExceeded md = maxToolCallsExceeded metadataFragment
    /\ map status (turnResponses w')
       = map status (turnResponses w)
           ++ [if prompt then TurnStatus.PromptFiltered else TurnStatus.Filtered].
Proof.
  intros [Ek | Ek] prompt; subst prompt; unfold processResult; rewrite Ek;
    run_classifier; do 3 eexists; (split; [reflexivity|]);
    cbn; rewrite map_app; repeat split; reflexivity.
Qed.

(** Every failure but AgentUnauthorized returns the details that
    getErrorDetailsFromChatFetchError makes of the fetch result and the
    plan, with the hideRateLimitTimeEstimate option for QuotaExceeded and
    RateLimited and without it otherwise. The message of these details is
    recorded on the turn for Canceled (as a user message) and for
    BadRequest, NetworkError and Failed (as a server message); the other
    failures record no message. *)
Theorem processResult_error_details (fetchResult : ChatResponse) (w : World) :
  let k := type fetchResult in
  k <> ChatFetchResponseType.Success ->
  k <> ChatFetchResponseType.OffTopic ->
  k <> ChatFetchResponseType.AgentUnauthorized ->
  k <> ChatFetchResponseType.InvalidStatefulMarker ->
  let details :=
    getErrorDetailsFromChatFetchError fetchResult (copilotPlan w)
      (match k with
       | ChatFetchResponseType.QuotaExceeded | ChatFetchResponseType.RateLimited =>
           hideRateLimitTimeEstimate (handlerOptions h)
       | _ => None
       end) in
  exists (result : ChatResult) (recorded : TurnResponse) (w' : World),
    processResult h fetchResult responseMessage chatResult metadataFragment
                  messageId rounds w = (inr result, w')
    /\ errorDetails result = Some details
    /\ turnResponses w' = turnResponses w ++ [recorded]
    /\ turnMessage recorded
       = match k with
         | ChatFetchResponseType.Canceled =>
             Some {| tm_type := user; tm_message := message details |}
         | ChatFetchResponseType.BadRequest | ChatFetchResponseType.NetworkError
         | ChatFetchResponseType.Failed =>
             Some {| tm_type := server; tm_message := message details |}
         | _ => None
         end.
Proof.
  intros k Hs Ho Ha Hi details. subst details k. unfold processResult.
  destruct (type fetchResult) eqn:Ek; try congruence;
    run_classifier; do 3 eexists; repeat split; reflexivity.
Qed.

End ClassifierEffects.

(** ** The ways out of a request *)

Section RequestPaths.
Context `{Services}.

Variable h : Handler.

Hypothesis notLimitCancellation : isToolCallLimitCancellation (request h) = false.

(** The world in which the intent is invoked. *)
Let invoking (w : World) : World :=
  withIntentInvocation (appendLog (LogTrace "Processing intent") w).

(** The world in which the confirmations are handled. *)
Let invoked (intentInvocation : IIntentInvocation) (w : World) : World :=
  snd (setIntentInvocationMetadata intentInvocation
         (appendLog (LogTrace "Processed intent") w)).

Ltac run_request :=
  unfold getResult, tryCatch, getResultBody, handleConfirmationsIfNeeded,
    setIntentInvocationMetadata, turn_setMetadata, countIntentInvocation, log,
    bind, ret, gets, modify, throw.

(** A request whose token is already cancelled returns the cancelled
    result and does nothing at all: the intent is not invoked, nothing is
    logged, the turn is not marked. *)
Theorem getResult_cancelled_at_start (w : World) :
  isCancellationRequested w = true ->
  getResult h w = (inr CanceledResult, w).
Proof.
  intros Hc. run_request. rewrite notLimitCancellation. cbn. now rewrite Hc.
Qed.

(** A request cancelled while the intent is invoked returns the cancelled
    result in the world the invocation left: no metadata is set on the
    turn, the loop is not run and no response is recorded. *)
Theorem getResult_cancelled_after_invoke (intentInvocation : IIntentInvocation)
    (w w1 : World) :
  isCancellationRequested w = false ->
  intent_invoke h (invoking w) = (inr intentInvocation, w1) ->
  isCancellationRequested w1 = true ->
  getResult h w = (inr CanceledResult, w1).
Proof.
  intros Hc Hinvoke Hc1. run_request. rewrite notLimitCancellation. cbn.
  rewrite Hc. cbn. unfold invoking in Hinvoke. rewrite Hinvoke. cbn. now rewrite Hc1.
Qed.

(** A request that answers a confirmation, for an intent with a
    confirmation handler, hands the answer to that handler and returns the
    empty result in the world the handler left: the loop is not run and the
    handler of the request records no response. *)
Theorem getResult_confirmation (intentInvocation : IIntentInvocation)
    (w w1 w2 : World) :
  isCancellationRequested w = false ->
  intent_invoke h (invoking w) = (inr intentInvocation, w1) ->
  isCancellationRequested w1 = false ->
  nonEmpty (acceptedConfirmationData (request h))
  || nonEmpty (rejectedConfirmationData (request h)) = true ->
  hasConfirmationHandler intentInvocation = true ->
  confirmationHandler intentInvocation (acceptedConfirmationData (request h))
    (rejectedConfirmationData (request h)) (invoked intentInvocation w1)
  = (inr tt, w2) ->
  getResult h w = (inr emptyResult, w2).
Proof.
  intros Hc Hinvoke Hc1 Hdata Hhandler Hconfirm.
  run_request. rewrite notLimitCancellation. cbn.
  rewrite Hc. cbn. unfold invoking in Hinvoke. rewrite Hinvoke. cbn. rewrite Hc1. cbn.
  rewrite Hdata, Hhandler. cbn.
  unfold invoked, setIntentInvocationMetadata, turn_setMetadata, modify in Hconfirm.
  cbn in Hconfirm. now rewrite Hconfirm.
Qed.

(** The request up to the loop, when nothing is cancelled and no
    confirmation is answered. *)
Lemma getResultBody_reaches_loop (intentInvocation : IIntentInvocation) (w w1 : World) :
  isCancellationRequested w = false ->
  intent_invoke h (invoking w) = (inr intentInvocation, w1) ->
  isCancellationRequested w1 = false ->
  (nonEmpty (acceptedConfirmationData (request h))
   || nonEmpty (rejectedConfirmationData (request h)))
  && hasConfirmationHandler intentInvocation = false ->
  getResultBody h w
  = bind (runWithToolCalling h intentInvocation)
         (resultOfLoop h intentInvocation) (invoked intentInvocation w1).
Proof.
  intros Hc Hinvoke Hc1 Hdata.
  unfold getResultBody, handleConfirmationsIfNeeded, setIntentInvocationMetadata,
    turn_setMetadata, countIntentInvocation, log.
  unfold bind at 1, gets at 1. rewrite Hc.
  unfold bind at 1, modify at 1. unfold bind at 1, modify at 1.
  unfold bind at 1. unfold invoking in Hinvoke. rewrite Hinvoke.
  unfold bind at 1, gets at 1. rewrite Hc1.
  unfold bind at 1, modify at 1. unfold bind at 1, modify at 1.
  unfold bind at 1. unfold bind at 1, gets at 1. cbn - [runWithToolCalling resultOfLoop bind].
  rewrite Hdata. reflexivity.
Qed.

(** What the loop throws leaves runWithToolCalling as it is: no
    tool-calling telemetry is sent and no button is rendered. *)
Lemma runWithToolCalling_throws (intentInvocation : IIntentInvocation) (err : Exn)
    (w w' : World) :
  loop_run (loopOptions h intentInvocation) (withLoopRun w) = (inl err, w') ->
  runWithToolCalling h intentInvocation w = (inl err, w').
Proof.
  intros Hloop. unfold runWithToolCalling, countLoopRun.
  unfold bind at 1, modify at 1. unfold bind at 1. now rewrite Hloop.
Qed.

(** When a tool call of the loop is cancelled, the request returns the
    empty result and marks the turn Cancelled with the message of the error;
    nothing is logged as an error and no telemetry is sent by the handler:
    but for the recorded response, the world is as the loop left it. *)
Theorem getResult_tool_call_cancelled (intentInvocation : IIntentInvocation)
    (msg : string) (w w1 w2 : World) :
  isCancellationRequested w = false ->
  intent_invoke h (invoking w) = (inr intentInvocation, w1) ->
  isCancellationRequested w1 = false ->
  (nonEmpty (acceptedConfirmationData (request h))
   || nonEmpty (rejectedConfirmationData (request h)))
  && hasConfirmationHandler intentInvocation = false ->
  loop_run (loopOptions h intentInvocation)
           (withLoopRun (invoked intentInvocation w1))
  = (inl (ToolCallCancelledError msg), w2) ->
  getResult h w
  = (inr emptyResult,
     recordResponse
       {| status := TurnStatus.Cancelled;
          turnMessage := Some {| tm_type := meta; tm_message := msg |};
          responseId := None; responseChatResult := emptyResult |} w2).
Proof.
  intros Hc Hinvoke Hc1 Hdata Hloop.
  unfold getResult, tryCatch. rewrite notLimitCancellation.
  rewrite (getResultBody_reaches_loop intentInvocation w w1 Hc Hinvoke Hc1 Hdata).
  unfold bind at 1.
  rewrite (runWithToolCalling_throws intentInvocation _ _ _ Hloop).
  reflexivity.
Qed.

(** When the loop throws a cancellation error or an empty-prompt error,
    the request returns the cancelled result, respectively the empty result,
    and leaves the world as the loop left it: no response is ever recorded
    on the turn for such a request, and nothing is logged or reported. *)
Theorem getResult_loop_cancelled_or_empty (intentInvocation : IIntentInvocation)
    (err : Exn) (w w1 w2 : World) :
  isCancellationRequested w = false ->
  intent_invoke h (invoking w) = (inr intentInvocation, w1) ->
  isCancellationRequested w1 = false ->
  (nonEmpty (acceptedConfirmationData (request h))
   || nonEmpty (rejectedConfirmationData (request h)))
  && hasConfirmationHandler intentInvocation = false ->
  loop_run (loopOptions h intentInvocation)
           (withLoopRun (invoked intentInvocation w1)) = (inl err, w2) ->
  isCancellationError err || instanceofEmptyPromptError err = true ->
  getResult h w
  = (inr (if isCancellationError err then CanceledResult else emptyResult), w2).
Proof.
  intros Hc Hinvoke Hc1 Hdata Hloop Hkind.
  unfold getResult, tryCatch. rewrite notLimitCancellation.
  rewrite (getResultBody_reaches_loop intentInvocation w w1 Hc Hinvoke Hc1 Hdata).
  unfold bind at 1.
  rewrite (runWithToolCalling_throws intentInvocation _ _ _ Hloop).
  destruct err; cbn in Hkind; try discriminate; reflexivity.
Qed.

(** With no confirmation data, with empty confirmation data, or for an
    intent without a confirmation handler, handleConfirmationsIfNeeded
    returns undefined and changes nothing; the handler is not called. *)
Theorem handleConfirmationsIfNeeded_nothing_to_confirm
    (intentInvocation : IIntentInvocation) (w : World) :
  intentInvocationMetadata (turnMetadata w) = Some intentInvocation ->
  ((acceptedConfirmationData (request h) = None
    \/ acceptedConfirmationData (request h) = Some [])
   /\ (rejectedConfirmationData (request h) = None
       \/ rejectedConfirmationData (request h) = Some []))
  \/ hasConfirmationHandler intentInvocation = false ->
  handleConfirmationsIfNeeded h w = (inr None, w).
Proof.
  intros Hmeta Hnothing. unfold handleConfirmationsIfNeeded, bind, gets. cbn.
  rewrite Hmeta. destruct Hnothing as [[Ha Hr] | Hhandler].
  - destruct Ha as [-> | ->], Hr as [-> | ->]; reflexivity.
  - rewrite Hhandler. now rewrite andb_false_r.
Qed.

End RequestPaths.

(** ** After the loop *)

Section AfterLoop.
Context `{Services}.

Variables (h : Handler) (intentInvocation : IIntentInvocation).
Variable resultDetails : IToolCallLoopResult.

(** The text, the fragment and the chat result that the statements after
    the loop hand to processResult. *)
Let lastText : string :=
  match last (lr_toolCallRounds resultDetails) with
  | Some round => response round
  | None => ""
  end.

Let fragment : IResultMetadata :=
  {| md_toolCallRounds := Some (lr_toolCallRounds resultDetails);
     md_toolCallResults :=
       _collectRelevantToolCallResults (lr_toolCallRounds resultDetails)
                                       (lr_toolCallResults resultDetails);
     maxToolCallsExceeded := None; filterReason := None;
     md_codeBlocks := None; md_summary := None;
     md_renderedUserMessage := None; md_renderedGlobalContext := None |}.

Let mixed : ChatResult :=
  mixinMetadata (default emptyResult (lr_chatResult resultDetails)) fragment.

Let signalled (w : World) : World :=
  snd (signalUsage
         ((match location h with ChatLocation.Editor => "inline" | _ => "panel" end)
            +:+ "." +:+ intentId h, documentContext h) w).

Ltac run_classifier :=
  unfold processOffTopicFetchResult, turn_setResponse, stream_markdown,
    stream_push, sendTelemetry, log, bind, ret, gets, modify, throw; cbn.

(** The statements after the loop, around the classifier. *)
Lemma resultOfLoop_classifies (w : World) :
  resultOfLoop h intentInvocation resultDetails w
  = match processResult h (lr_response resultDetails) lastText (Some mixed) fragment
            (createTelemetryWithId (signalled w)) (lr_toolCallRounds resultDetails)
            (signalled w) with
    | (inr chatResult, w') =>
        (inr (applyModifyErrorDetails intentInvocation chatResult
                (lr_response resultDetails)),
         if hadIgnoredFiles resultDetails
         then pushPart (Markdown HAS_IGNORED_FILES_MESSAGE) w' else w')
    | (inl err, w') => (inl err, w')
    end.
Proof.
  unfold resultOfLoop.
  unfold bind at 1, signalUsage at 1, modify at 1.
  unfold bind at 1, gets at 1. unfold bind at 1.
  fold lastText. fold fragment. fold mixed.
  unfold signalled, signalUsage, modify. cbn [snd].
  destruct (processResult _ _ _ _ _ _ _ _) as [[err | chatResult] w']; [reflexivity|].
  unfold bind at 1. destruct (hadIgnoredFiles resultDetails); reflexivity.
Qed.

(** What the classifier returns and writes to the stream. *)
Lemma processResult_returns (fetchResult : ChatResponse) (text : string)
    (chatResult : option ChatResult) (md : IResultMetadata) (messageId : string)
    (rounds : list IToolCallRound) (w : World) :
  type fetchResult <> ChatFetchResponseType.InvalidStatefulMarker ->
  exists (result : ChatResult) (w' : World),
    processResult h fetchResult text chatResult md messageId rounds w = (inr result, w')
    /\ stream w'
       = stream w ++
           (if ChatFetchResponseType.eqb (type fetchResult) ChatFetchResponseType.OffTopic
            then [Markdown (rejectionMessage (options h))] else [])
    /\ metadataMaxToolCallsExceeded result
       = displayedSuccess fetchResult text rounds
         && metadataMaxToolCallsExceeded (default emptyResult chatResult)
         || metadataMaxToolCallsExceeded
              {| errorDetails := None; metadata := Some md |}
            && negb (ChatFetchResponseType.eqb (type fetchResult)
                       ChatFetchResponseType.Success)
            && negb (ChatFetchResponseType.eqb (type fetchResult)
                       ChatFetchResponseType.OffTopic)
            && negb (ChatFetchResponseType.eqb (type fetchResult)
                       ChatFetchResponseType.AgentUnauthorized).
Proof.
  intros Hkind. unfold processResult, displayedSuccess.
  assert (Hbool : forall b : bool, b = b && true && true && true)
    by (intros []; reflexivity).
  assert (Hnone : forall b : bool, false = b && false && true && true)
    by (intros []; reflexivity).
  destruct (type fetchResult) eqn:Ek; try congruence; cbn;
    try (run_classifier; do 2 eexists; rewrite ?app_nil_r;
         repeat split;
         first [apply Hbool | reflexivity
               | cbn; destruct (default false (maxToolCallsExceeded md)); reflexivity]).
  rewrite processSuccessfulFetchResult_cases.
  destruct (noResponse text rounds); cbn; do 2 eexists;
    rewrite ?app_nil_r; (split; [reflexivity|]); (split; [reflexivity|]).
  - apply Hnone.
  - unfold metadataMaxToolCallsExceeded. cbn.
    destruct (metadata (default emptyResult chatResult)) as [m|];
      [destruct (default false (maxToolCallsExceeded m))|];
      destruct (default false (maxToolCallsExceeded md)); reflexivity.
Qed.

Lemma applyModifyErrorDetails_metadata (chatResult : ChatResult) (fr : ChatResponse) :
  metadata (applyModifyErrorDetails intentInvocation chatResult fr) = metadata chatResult.
Proof.
  unfold applyModifyErrorDetails.
  destruct (errorDetails chatResult); [|reflexivity].
  destruct (hasModifyErrorDetails intentInvocation); reflexivity.
Qed.

Lemma mixed_mark :
  metadataMaxToolCallsExceeded mixed
  = metadataMaxToolCallsExceeded (default emptyResult (lr_chatResult resultDetails)).
Proof.
  unfold mixed, mixinMetadata, metadataMaxToolCallsExceeded.
  destruct (metadata (default emptyResult (lr_chatResult resultDetails))); reflexivity.
Qed.

(** The stream after the statements that follow the loop, for every kind
    of fetch result: the rejection message for an off-topic result, then the
    notice on ignored files when the loop reported some; nothing else. On
    the kind that makes the classifier throw, the notice is not pushed. *)
Theorem resultOfLoop_stream (w : World) :
  let k := type (lr_response resultDetails) in
  stream (snd (resultOfLoop h intentInvocation resultDetails w))
  = stream w
      ++ (if ChatFetchResponseType.eqb k ChatFetchResponseType.OffTopic
          then [Markdown (rejectionMessage (options h))] else [])
      ++ (if hadIgnoredFiles resultDetails
             && negb (ChatFetchResponseType.eqb k
                        ChatFetchResponseType.InvalidStatefulMarker)
          then [Markdown HAS_IGNORED_FILES_MESSAGE] else []).
Proof.
  intros k. subst k. rewrite resultOfLoop_classifies.
  destruct (ChatFetchResponseType.eqb (type (lr_response resultDetails))
              ChatFetchResponseType.InvalidStatefulMarker) eqn:Emarker.
  - assert (Ek : type (lr_response resultDetails)
                 = ChatFetchResponseType.InvalidStatefulMarker)
      by (destruct (type (lr_response resultDetails)); cbn in Emarker; congruence).
    unfold processResult. rewrite Ek. cbn. rewrite andb_false_r. now rewrite app_nil_r.
  - assert (Ek : type (lr_response resultDetails)
                 <> ChatFetchResponseType.InvalidStatefulMarker)
      by (intros Ek; rewrite Ek in Emarker; discriminate).
    destruct (processResult_returns (lr_response resultDetails) lastText (Some mixed)
                fragment (createTelemetryWithId (signalled w))
                (lr_toolCallRounds resultDetails) (signalled w) Ek)
      as (result & w' & Hrun & Hstream & _).
    rewrite Hrun. cbn [snd]. rewrite andb_true_r.
    destruct (hadIgnoredFiles resultDetails); cbn; rewrite Hstream.
    + now rewrite <- app_assoc.
    + now rewrite app_nil_r.
Qed.

(** The maxToolCallsExceeded mark that the loop left in its chat result is
    on the chat result of the request exactly when the outcome is a
    displayed success; every other outcome returns a chat result without
    the mark. *)
Theorem resultOfLoop_limit_mark (w : World) :
  type (lr_response resultDetails) <> ChatFetchResponseType.InvalidStatefulMarker ->
  exists (result : ChatResult) (w' : World),
    resultOfLoop h intentInvocation resultDetails w = (inr result, w')
    /\ metadataMaxToolCallsExceeded result
       = displayedSuccess (lr_response resultDetails) lastText
                          (lr_toolCallRounds resultDetails)
         && metadataMaxToolCallsExceeded
              (default emptyResult (lr_chatResult resultDetails)).
Proof.
  intros Ek. rewrite resultOfLoop_classifies.
  destruct (processResult_returns (lr_response resultDetails) lastText (Some mixed)
              fragment (createTelemetryWithId (signalled w))
              (lr_toolCallRounds resultDetails) (signalled w) Ek)
    as (result & w' & Hrun & _ & Hmark).
  rewrite Hrun. do 2 eexists. split; [reflexivity|].
  unfold metadataMaxToolCallsExceeded at 1.
  rewrite applyModifyErrorDetails_metadata.
  fold (metadataMaxToolCallsExceeded result). rewrite Hmark.
  change (default emptyResult (Some mixed)) with mixed. rewrite mixed_mark.
  change (metadataMaxToolCallsExceeded
            {| errorDetails := None; metadata := Some fragment |}) with false.
  now rewrite orb_false_r.
Qed.

(** A displayed success is recorded with the text of the last round as
    the model message, whatever the earlier rounds said, and the metadata
    returned lists all the rounds of the loop. *)
Theorem resultOfLoop_success (w : World) :
  type (lr_response resultDetails) = ChatFetchResponseType.Success ->
  noResponse lastText (lr_toolCallRounds resultDetails) = false ->
  exists (result : ChatResult) (md : IResultMetadata) (recorded : TurnResponse)
         (w' : World),
    resultOfLoop h intentInvocation resultDetails w = (inr result, w')
    /\ turnResponses w' = turnResponses w ++ [recorded]
    /\ status recorded = TurnStatus.Success
    /\ turnMessage recorded = Some {| tm_type := model; tm_message := lastText |}
    /\ metadata result = Some md
    /\ md_toolCallRounds md = Some (lr_toolCallRounds resultDetails).
Proof.
  intros Ek Hshown. rewrite resultOfLoop_classifies.
  unfold processResult. rewrite Ek, processSuccessfulFetchResult_cases, Hshown.
  cbn [default].
  assert (Hmd : exists md, metadata mixed = Some md
                           /\ md_toolCallRounds md = Some (lr_toolCallRounds resultDetails)).
  { unfold mixed, mixinMetadata.
    destruct (metadata (default emptyResult (lr_chatResult resultDetails)));
      eexists; split; reflexivity. }
  destruct Hmd as (md & Hmd & Hrounds).
  exists (applyModifyErrorDetails intentInvocation mixed (lr_response resultDetails)), md.
  do 2 eexists. split; [reflexivity|].
  rewrite applyModifyErrorDetails_metadata.
  split; [destruct (hadIgnoredFiles resultDetails); reflexivity|].
  repeat split; try reflexivity; assumption.
Qed.

(** A success without a response comes out of the request as an error:
    the turn is marked Error, and the chat result returned has no metadata
    and carries the message with the request id as error details, after
    modifyErrorDetails of the intent invocation when the invocation
    defines it. *)
Theorem resultOfLoop_no_response (w : World) :
  type (lr_response resultDetails) = ChatFetchResponseType.Success ->
  noResponse lastText (lr_toolCallRounds resultDetails) = true ->
  let details :=
    messageOnly ("The model unexpectedly did not return a response. Request ID: "
                   +:+ requestId (lr_response resultDetails)) in
  exists (recorded : TurnResponse) (w' : World),
    resultOfLoop h intentInvocation resultDetails w
    = (inr {| errorDetails :=
                Some (if hasModifyErrorDetails intentInvocation
                      then modifyErrorDetails intentInvocation details
                             (lr_response resultDetails)
                      else details);
              metadata := None |}, w')
    /\ turnResponses w' = turnResponses w ++ [recorded]
    /\ status recorded = TurnStatus.Error
    /\ turnMessage recorded = Some {| tm_type := meta; tm_message := message details |}.
Proof.
  intros Ek Hnone details. rewrite resultOfLoop_classifies.
  unfold processResult. rewrite Ek, processSuccessfulFetchResult_cases, Hnone.
  cbn zeta. unfold applyModifyErrorDetails. cbn [errorDetails metadata].
  do 2 eexists. split.
  - destruct (hasModifyErrorDetails intentInvocation); reflexivity.
  - destruct (hadIgnoredFiles resultDetails); repeat split; reflexivity.
Qed.

End AfterLoop.

(** ** The tool results of a turn *)

Section CollectedResults.

Variable toolCallResults : gmap string LanguageModelToolResult2.

Let record (acc : ToolCallResults) (toolCall : IToolCall) : ToolCallResults :=
  <[tc_id toolCall := toolCallResults !! tc_id toolCall]> acc.

Lemma foldl_rounds_flat (acc : ToolCallResults) (rounds : list IToolCallRound) :
  foldl (fun acc round => foldl record acc (toolCalls round)) acc rounds
  = foldl record acc (concat (toolCalls <$> rounds)).
Proof.
  revert acc. induction rounds as [|round rounds IH]; intros acc; [reflexivity|].
  cbn. rewrite foldl_app. apply IH.
Qed.

Lemma foldl_record_lookup (calls : list IToolCall) (acc : ToolCallResults) (id : string) :
  foldl record acc calls !! id
  = if decide (id ∈ tc_id <$> calls) then Some (toolCallResults !! id) else acc !! id.
Proof.
  revert acc. induction calls as [|call calls IH]; intros acc.
  - cbn. case_decide as Hin; [|reflexivity]. now apply elem_of_nil in Hin.
  - cbn [foldl]. rewrite IH. unfold record.
    rewrite fmap_cons.
    destruct (decide (id ∈ tc_id <$> calls)) as [Hin | Hout].
    + rewrite decide_True by (apply elem_of_cons; now right). reflexivity.
    + destruct (decide (tc_id call = id)) as [<- | Hne].
      * rewrite decide_True by (apply elem_of_cons; now left).
        now rewrite lookup_insert_eq.
      * rewrite decide_False.
        -- now rewrite lookup_insert_ne.
        -- intros [Heq | Hin]%elem_of_cons; [congruence | contradiction].
Qed.

Lemma collected_is_fold (rounds : list IToolCallRound) :
  default ∅ (_collectRelevantToolCallResults rounds toolCallResults)
  = foldl record ∅ (concat (toolCalls <$> rounds)).
Proof.
  unfold _collectRelevantToolCallResults. fold record.
  rewrite foldl_rounds_flat.
  case_decide as Hsize; [|reflexivity].
  cbn. symmetry. now apply map_size_empty_iff.
Qed.

(** The results collected for a turn have exactly the ids of the tool
    calls of its rounds: each such id is a key, with the result the loop
    holds for it, or undefined when the loop holds none; what the loop holds
    for other ids is left out. *)
Theorem collected_results_lookup (rounds : list IToolCallRound) (id : string) :
  default ∅ (_collectRelevantToolCallResults rounds toolCallResults) !! id
  = if decide (id ∈ tc_id <$> concat (toolCalls <$> rounds))
    then Some (toolCallResults !! id) else None.
Proof.
  rewrite collected_is_fold, foldl_record_lookup.
  case_decide; [reflexivity | apply lookup_empty].
Qed.

(** Nothing is collected, and the metadata gets no toolCallResults, exactly
    when no round has a tool call. *)
Theorem collected_results_none (rounds : list IToolCallRound) :
  _collectRelevantToolCallResults rounds toolCallResults = None
  <-> Forall (fun round => toolCalls round = []) rounds.
Proof.
  assert (Hflat : concat (toolCalls <$> rounds) = []
                  <-> Forall (fun round => toolCalls round = []) rounds).
  { induction rounds as [|round rounds IH]; cbn.
    - split; [constructor | reflexivity].
    - split.
      + intros [Hr Hrest]%app_eq_nil. constructor; [exact Hr | now apply IH].
      + intros Hall. inversion Hall as [|? ? Hr Hrest]; subst.
        rewrite Hr. cbn. now apply IH. }
  rewrite <- Hflat. clear Hflat.
  unfold _collectRelevantToolCallResults. fold record. rewrite foldl_rounds_flat.
  destruct (concat (toolCalls <$> rounds)) as [|call calls] eqn:Ecalls.
  - cbn. split; reflexivity.
  - split; [|discriminate]. case_decide as Hsize; [|discriminate]. intros _.
    apply map_size_empty_iff in Hsize.
    pose proof (foldl_record_lookup (call :: calls) ∅ (tc_id call)) as Hlookup.
    rewrite Hsize, lookup_empty in Hlookup.
    rewrite decide_True in Hlookup by (rewrite fmap_cons; apply elem_of_cons; now left).
    discriminate.
Qed.

End CollectedResults.

(** ** The metadata of the turn on the chat result *)

(** resultWithMetadatas keeps the error details and what the loop put in
    the metadata (rounds, tool results, the maxToolCallsExceeded mark, the
    filter reason), and applying it twice is applying it once. *)
Theorem resultWithMetadatas_keeps (tm : TurnMetadata) (chatResult : ChatResult) :
  let result := resultWithMetadatas tm chatResult in
  resultWithMetadatas tm result = result
  /\ errorDetails result = errorDetails chatResult
  /\ metadata result ≫= md_toolCallRounds = metadata chatResult ≫= md_toolCallRounds
  /\ metadata result ≫= md_toolCallResults = metadata chatResult ≫= md_toolCallResults
  /\ metadata result ≫= filterReason = metadata chatResult ≫= filterReason
  /\ metadataMaxToolCallsExceeded result = metadataMaxToolCallsExceeded chatResult.
Proof.
  unfold resultWithMetadatas, metadataMaxToolCallsExceeded.
  destruct tm as [inv [c|] [s|] [r|] [g|]], chatResult as [e [md|]];
    cbn; repeat split; reflexivity.
Qed.

(** ** The buttons of the parallel tasks, and the telemetry of the loop *)

Lemma pushParts_app (a b : list ChatResponsePart) (w : World) :
  pushParts (a ++ b) w = pushParts b (pushParts a w).
Proof. unfold pushParts. apply foldl_app. Qed.

Lemma pushParts_stream (parts : list ChatResponsePart) (w : World) :
  stream (pushParts parts w) = stream w ++ parts.
Proof.
  revert w. induction parts as [|p parts IH]; intros w.
  - cbn. now rewrite app_nil_r.
  - change (pushParts (p :: parts) w) with (pushParts parts (pushPart p w)).
    rewrite IH. cbn. now rewrite <- app_assoc.
Qed.

Lemma pushParts_frame (parts : list ChatResponsePart) (w : World) :
  telemetry (pushParts parts w) = telemetry w
  /\ turnResponses (pushParts parts w) = turnResponses w
  /\ turnMetadata (pushParts parts w) = turnMetadata w
  /\ logs (pushParts parts w) = logs w.
Proof.
  revert w. induction parts as [|p parts IH]; intros w.
  - repeat split.
  - change (pushParts (p :: parts) w) with (pushParts parts (pushPart p w)).
    destruct (IH (pushPart p w)) as (Ht & Hr & Hm & Hl). repeat split; assumption.
Qed.

Section Buttons.
Context `{Services}.

Lemma extractAndRenderButtons_pushes (content : string) (w : World) :
  extractAndRenderButtons content w
  = (inr tt, pushParts (CommandButton <$> buttonCommands content) w).
Proof.
  unfold extractAndRenderButtons.
  generalize (buttonCommands content). intros commands. revert w.
  match goal with |- context [foldr ?f _ _] => set (push := f) end.
  induction commands as [|c commands IH]; intros w; [reflexivity|].
  change (foldr push (ret tt) (c :: commands) w)
    with (foldr push (ret tt) commands (pushPart (CommandButton c) w)).
  apply IH.
Qed.

Lemma filter_rounds_flat (rounds : list IToolCallRound) :
  concat (map (fun round => filter (fun c => isParallelTaskCall c = true) (toolCalls round))
              rounds)
  = filter (fun c => isParallelTaskCall c = true) (concat (toolCalls <$> rounds)).
Proof.
  induction rounds as [|round rounds IH]; [reflexivity|].
  cbn. rewrite filter_app. now rewrite IH.
Qed.

Lemma processPostLoopParallelTaskButtons_pushes (rounds : list IToolCallRound)
    (results : gmap string LanguageModelToolResult2) (w : World) :
  processPostLoopParallelTaskButtons rounds results w
  = (inr tt, pushParts (renderedButtons (concat (toolCalls <$> rounds)) results) w).
Proof.
  unfold processPostLoopParallelTaskButtons, renderedButtons.
  rewrite filter_rounds_flat.
  generalize (filter (fun c => isParallelTaskCall c = true)
                     (concat (toolCalls <$> rounds))).
  intros calls. revert w.
  match goal with |- context [foldr ?f _ _] => set (render := f) end.
  induction calls as [|call calls IH]; intros w; [reflexivity|].
  change (foldr render (ret tt) (call :: calls) w)
    with (render call (foldr render (ret tt) calls) w).
  rewrite bind_cons, pushParts_app. unfold render at 1.
  destruct (results !! tc_id call) as [toolResult|]; [|apply IH].
  unfold bind at 1, processToolResultForButtons.
  rewrite extractAndRenderButtons_pushes. apply IH.
Qed.

(** On a response of the loop, the buttons of the parallel-task calls
    whose result is there are pushed in the order of the calls, and nothing
    else is pushed; the parallel-task calls without a result are the ones
    handed over to be retried. Calls of other tools push nothing and are
    never retried. The pass after the loop pushes the same buttons for a
    round with these calls. *)
Theorem processParallelTaskButtons_pushes (text : string) (calls : list IToolCall)
    (results : gmap string LanguageModelToolResult2) (w : World) :
  processParallelTaskButtons calls results w
  = (inr (filter (fun c => isParallelTaskCall c = true /\ results !! tc_id c = None) calls),
     pushParts (renderedButtons calls results) w)
  /\ snd (processPostLoopParallelTaskButtons
            [{| response := text; toolCalls := calls |}] results w)
     = pushParts (renderedButtons calls results) w.
Proof.
  split.
  - unfold processParallelTaskButtons, renderedButtons.
    revert w. induction calls as [|call calls IH]; intros w; [reflexivity|].
    rewrite !filter_cons.
    destruct (decide (isParallelTaskCall call = true)) as [Hp | Hp].
    + match goal with |- context [foldr ?f _ _] => set (render := f) in * end.
      change (foldr render (ret [])
                (call :: filter (fun c => isParallelTaskCall c = true) calls) w)
        with (render call (foldr render (ret [])
                             (filter (fun c => isParallelTaskCall c = true) calls)) w).
      rewrite bind_cons, pushParts_app. unfold render at 1.
      destruct (results !! tc_id call) as [toolResult|] eqn:Eresult.
      * rewrite decide_False by (intros [_ ?]; discriminate).
        unfold bind at 1, processToolResultForButtons.
        rewrite extractAndRenderButtons_pushes. apply IH.
      * rewrite decide_True by (split; [exact Hp | reflexivity]).
        unfold bind at 1. rewrite IH. reflexivity.
    + rewrite decide_False by (intros [? _]; contradiction). apply IH.
  - rewrite processPostLoopParallelTaskButtons_pushes. cbn. now rewrite app_nil_r.
Qed.

(** The pass after the loop goes round by round: over the rounds of a
    loop followed by further rounds, it leaves the world that the pass over
    the further rounds leaves after the pass over the first ones. Calls of
    earlier rounds are rendered before those of later rounds, and each
    round is rendered once. *)
Theorem processPostLoopParallelTaskButtons_app (rounds further : list IToolCallRound)
    (results : gmap string LanguageModelToolResult2) (w : World) :
  processPostLoopParallelTaskButtons (rounds ++ further) results w
  = processPostLoopParallelTaskButtons further results
      (snd (processPostLoopParallelTaskButtons rounds results w)).
Proof.
  rewrite !processPostLoopParallelTaskButtons_pushes. cbn [snd].
  rewrite fmap_app, concat_app.
  unfold renderedButtons. rewrite filter_app, bind_app. now rewrite pushParts_app.
Qed.

Variables (h : Handler) (intentInvocation : IIntentInvocation).

(** The world after runWithToolCalling, from the world the loop left. *)
Lemma runWithToolCalling_returns (result : IToolCallLoopResult) (w w1 : World) :
  loop_run (loopOptions h intentInvocation) (withLoopRun w) = (inr result, w1) ->
  let rounds := lr_toolCallRounds result in
  let ended :=
    negb (hasToolCalls (lr_round result))
    || negb (ChatFetchResponseType.eqb (type (lr_response result))
                                       ChatFetchResponseType.Success) in
  let w2 :=
    if ended
    then appendTelemetry
           (ToolCallingTelemetry rounds
              (if isCancellationRequested w1 then OutcomeCancelled
               else OutcomeResponse (type (lr_response result)))) w1
    else w1 in
  let w3 :=
    if metadataMaxToolCallsExceeded (default emptyResult (lr_chatResult result))
    then appendTelemetry (ToolCallingTelemetry rounds OutcomeMaxToolCalls) w2
    else w2 in
  runWithToolCalling h intentInvocation w
  = (inr (withChatResult result
            (resultWithMetadatas (turnMetadata w1)
               (default emptyResult (lr_chatResult result)))),
     pushParts (renderedButtons (concat (toolCalls <$> rounds))
                                (lr_toolCallResults result)) w3).
Proof.
  intros Hloop rounds ended w2 w3. unfold runWithToolCalling.
  unfold bind at 1, countLoopRun, modify at 1.
  unfold bind at 1. rewrite Hloop.
  unfold bind at 1, gets at 1.
  fold ended. fold rounds.
  assert (Hfirst :
    (if ended
     then sendToolCallingTelemetry rounds
            (if isCancellationRequested w1 then OutcomeCancelled
             else OutcomeResponse (type (lr_response result)))
     else ret tt) w1 = (inr tt, w2))
    by (subst w2; destruct ended; reflexivity).
  unfold bind at 1. rewrite Hfirst.
  assert (Hsecond :
    (if metadataMaxToolCallsExceeded (default emptyResult (lr_chatResult result))
     then sendToolCallingTelemetry rounds OutcomeMaxToolCalls
     else ret tt) w2 = (inr tt, w3))
    by (subst w3; destruct (metadataMaxToolCallsExceeded _); reflexivity).
  unfold bind at 1. rewrite Hsecond.
  unfold bind at 1. rewrite processPostLoopParallelTaskButtons_pushes.
  unfold bind, gets, ret.
  destruct (pushParts_frame
              (renderedButtons (concat (toolCalls <$> rounds)) (lr_toolCallResults result))
              w3) as (_ & _ & Hmeta & _).
  rewrite Hmeta.
  assert (Hm : turnMetadata w3 = turnMetadata w1).
  { subst w3 w2. destruct (metadataMaxToolCallsExceeded _), ended; reflexivity. }
  now rewrite Hm.
Qed.

(** After a loop that returns, runWithToolCalling reports its outcome
    when the loop ended (the last round asks for no tool, or the fetch did
    not succeed), as cancelled when the token is cancelled by then and as
    the kind of the fetch result otherwise; it then reports maxToolCalls
    when the chat result of the loop carries the mark. A loop that stops at
    the limit on a success that still asks for tools is reported as
    maxToolCalls only. Nothing else is sent. *)
Theorem runWithToolCalling_telemetry (result : IToolCallLoopResult) (w w1 : World) :
  loop_run (loopOptions h intentInvocation) (withLoopRun w) = (inr result, w1) ->
  telemetry (snd (runWithToolCalling h intentInvocation w))
  = telemetry w1
      ++ (if negb (hasToolCalls (lr_round result))
             || negb (ChatFetchResponseType.eqb (type (lr_response result))
                                                ChatFetchResponseType.Success)
          then [ToolCallingTelemetry (lr_toolCallRounds result)
                  (if isCancellationRequested w1 then OutcomeCancelled
                   else OutcomeResponse (type (lr_response result)))]
          else [])
      ++ (if metadataMaxToolCallsExceeded (default emptyResult (lr_chatResult result))
          then [ToolCallingTelemetry (lr_toolCallRounds result) OutcomeMaxToolCalls]
          else []).
Proof.
  intros Hloop. rewrite (runWithToolCalling_returns result w w1 Hloop). cbn [snd].
  match goal with |- telemetry (pushParts ?ps ?w3) = _ =>
    destruct (pushParts_frame ps w3) as (Ht & _) end.
  rewrite Ht.
  destruct (metadataMaxToolCallsExceeded _), (_ || _); cbn;
    rewrite ?app_nil_r, <- ?app_assoc; reflexivity.
Qed.

(** After a loop that returns, runWithToolCalling pushes to the stream
    the buttons of the parallel-task calls of all rounds that have a result,
    in the order of the rounds, and nothing else; it records no response on
    the turn, and returns the result of the loop with a chat result that is
    always defined. *)
Theorem runWithToolCalling_stream (result : IToolCallLoopResult) (w w1 : World) :
  loop_run (loopOptions h intentInvocation) (withLoopRun w) = (inr result, w1) ->
  exists (returned : IToolCallLoopResult) (w' : World),
    runWithToolCalling h intentInvocation w = (inr returned, w')
    /\ stream w'
       = stream w1
           ++ renderedButtons (concat (toolCalls <$> lr_toolCallRounds result))
                              (lr_toolCallResults result)
    /\ turnResponses w' = turnResponses w1
    /\ lr_response returned = lr_response result
    /\ lr_toolCallRounds returned = lr_toolCallRounds result
    /\ hadIgnoredFiles returned = hadIgnoredFiles result
    /\ is_Some (lr_chatResult returned).
Proof.
  intros Hloop. rewrite (runWithToolCalling_returns result w w1 Hloop).
  do 2 eexists. split; [reflexivity|].
  rewrite pushParts_stream.
  match goal with |- context [pushParts ?ps ?w3] =>
    destruct (pushParts_frame ps w3) as (_ & Hr & _) end.
  rewrite Hr.
  repeat split; try (destruct (metadataMaxToolCallsExceeded _), (_ || _); reflexivity).
  cbn. eexists. reflexivity.
Qed.

End Buttons.

(** ** The names of the messages *)

Section MessageNames.

Variable intentId : string.

(** fixMessageNames changes nothing but names: as many messages, with the
    same roles and texts; a system message, and a message that is not named
    after the intent, is left as it is. Afterwards no message other than a
    system message is named after the intent, and fixing again changes
    nothing. *)
Theorem fixMessageNames_fixed (messages : list ChatMessage) :
  let fixed := fixMessageNames intentId messages in
  msg_role <$> fixed = msg_role <$> messages
  /\ msg_text <$> fixed = msg_text <$> messages
  /\ Forall2 (fun m m' =>
                msg_role m = Raw.System \/ msg_name m <> NameIs intentId -> m' = m)
             messages fixed
  /\ Forall (fun m => msg_role m <> Raw.System -> msg_name m <> NameIs intentId) fixed
  /\ fixMessageNames intentId fixed = fixed.
Proof.
  cbn zeta. unfold fixMessageNames.
  induction messages as [|m messages (Hroles & Htexts & Hsame & Hnames & Hagain)].
  - repeat split; constructor.
  - cbn [map fmap list_fmap]. unfold namedAfter at 1 2 3 4 5.
    destruct m as [role name text]. cbn [msg_role msg_name msg_text].
    assert (Hhead :
      forall m', m' = (if negb (isSystemRole role)
                          && match name with NameIs n => String.eqb n intentId | _ => false end
                       then {| msg_role := role; msg_name := NameUndefined; msg_text := text |}
                       else {| msg_role := role; msg_name := name; msg_text := text |}) ->
      msg_role m' = role /\ msg_text m' = text
      /\ (role = Raw.System \/ name <> NameIs intentId ->
          m' = {| msg_role := role; msg_name := name; msg_text := text |})
      /\ (msg_role m' <> Raw.System -> msg_name m' <> NameIs intentId)
      /\ (if negb (isSystemRole (msg_role m')) && namedAfter intentId m'
          then {| msg_role := msg_role m'; msg_name := NameUndefined;
                  msg_text := msg_text m' |}
          else m') = m').
    { intros m' ->. unfold namedAfter.
      destruct role, name as [| |n]; cbn; try (repeat split; congruence);
        destruct (String.eqb_spec n intentId) as [-> | Hne]; cbn;
        repeat split; try congruence;
        try (intros [? | ?]; congruence);
        try (destruct (String.eqb_spec n intentId); [contradiction | reflexivity]). }
    destruct (Hhead _ eq_refl) as (Hr & Ht & Hs & Hn & Ha).
    repeat split.
    + cbn. f_equal; [exact Hr | exact Hroles].
    + cbn. f_equal; [exact Ht | exact Htexts].
    + constructor; [exact Hs | exact Hsame].
    + constructor; [exact Hn | exact Hnames].
    + cbn [map]. f_equal; [exact Ha | exact Hagain].
Qed.

End MessageNames.

(** ** Virtual tool calls *)

Section VirtualCallResults.

Variable Grouping : Type.
Variable didCall :
  Grouping -> nat -> string -> option LanguageModelToolResult2 * Grouping.

Lemma handleVirtualCall_keeps (n : nat)
    (state : option (gmap string LanguageModelToolResult2) * Grouping)
    (call : IToolCall) (id : string) (r : LanguageModelToolResult2) :
  contextResult (fst state) id = Some r ->
  contextResult (fst (handleVirtualCall Grouping didCall n state call)) id = Some r.
Proof.
  intros Hr. unfold handleVirtualCall.
  destruct (contextResult (fst state) (tc_id call)) eqn:Ehas; [exact Hr|].
  destruct (didCall (snd state) n (tc_name call)) as [[expanded|] g]; [|exact Hr].
  unfold contextResult in *. cbn. rewrite lookup_insert_ne.
  - destruct (fst state); [exact Hr | discriminate].
  - intros <-. congruence.
Qed.

Lemma handleVirtualCall_adds (n : nat)
    (state : option (gmap string LanguageModelToolResult2) * Grouping)
    (call : IToolCall) (id : string) :
  contextResult (fst state) id = None ->
  is_Some (contextResult (fst (handleVirtualCall Grouping didCall n state call)) id) ->
  tc_id call = id.
Proof.
  intros Hnone [r Hr]. unfold handleVirtualCall in Hr.
  destruct (contextResult (fst state) (tc_id call)) eqn:Ehas; [congruence|].
  destruct (didCall (snd state) n (tc_name call)) as [[expanded|] g];
    cbn [fst] in Hr; [|congruence].
  destruct (decide (tc_id call = id)) as [Heq | Hne]; [exact Heq|].
  unfold contextResult in *. cbn in Hr.
  rewrite lookup_insert_ne in Hr by exact Hne.
  destruct (fst state); cbn in *; [congruence|].
  rewrite lookup_empty in Hr. discriminate.
Qed.

Lemma foldl_handleVirtualCall (n : nat) (calls : list IToolCall)
    (state : option (gmap string LanguageModelToolResult2) * Grouping) (id : string) :
  let final := foldl (handleVirtualCall Grouping didCall n) state calls in
  (forall r, contextResult (fst state) id = Some r -> contextResult (fst final) id = Some r)
  /\ (contextResult (fst state) id = None -> is_Some (contextResult (fst final) id) ->
      id ∈ tc_id <$> calls).
Proof.
  revert state. induction calls as [|call calls IH]; intros state; cbn zeta.
  - split; [auto|]. intros Hnone [r Hr]. cbn in Hr. congruence.
  - cbn [foldl].
    destruct (IH (handleVirtualCall Grouping didCall n state call)) as (Hkeep & Hadd).
    split.
    + intros r Hr. apply Hkeep. now apply handleVirtualCall_keeps.
    + intros Hnone Hsome. rewrite fmap_cons. apply elem_of_cons.
      destruct (contextResult (fst (handleVirtualCall Grouping didCall n state call)) id)
        as [r|] eqn:Estep.
      * left. symmetry. apply (handleVirtualCall_adds n state call id Hnone).
        rewrite Estep. now eexists.
      * right. now apply Hadd.
Qed.

(** _handleVirtualCalls never overwrites a tool result: every id that has
    a result in the context keeps that result. An id gets a result only if
    it is the id of a call of the last round, and the rounds are left as
    they are. *)
Theorem _handleVirtualCalls_results (toolGrouping : option Grouping)
    (context : PromptContext) (id : string) :
  let context' := fst (_handleVirtualCalls Grouping didCall toolGrouping context) in
  ctx_toolCallRounds context' = ctx_toolCallRounds context
  /\ (forall r, contextResult (ctx_toolCallResults context) id = Some r ->
                contextResult (ctx_toolCallResults context') id = Some r)
  /\ (contextResult (ctx_toolCallResults context) id = None ->
      is_Some (contextResult (ctx_toolCallResults context') id) ->
      id ∈ tc_id <$> lastRoundCalls context).
Proof.
  cbn zeta. unfold _handleVirtualCalls.
  destruct toolGrouping as [grouping|]; cbn [fst ctx_toolCallRounds ctx_toolCallResults].
  - split; [reflexivity|].
    apply (foldl_handleVirtualCall
             (length (default [] (ctx_toolCallRounds context)))
             (lastRoundCalls context) (ctx_toolCallResults context, grouping) id).
  - split; [reflexivity|]. split; [auto|].
    intros Hnone [r Hr]. congruence.
Qed.

(** Without a tool grouping, or when the grouping expands none of the
    calls of the last round that have no result yet, _handleVirtualCalls
    leaves the context as it is; in particular it does not create an empty
    result map. *)
Theorem _handleVirtualCalls_unchanged (toolGrouping : option Grouping)
    (context : PromptContext) :
  toolGrouping = None
  \/ (forall (g : Grouping) (call : IToolCall),
        call ∈ lastRoundCalls context ->
        contextResult (ctx_toolCallResults context) (tc_id call) = None ->
        fst (didCall g (length (default [] (ctx_toolCallRounds context))) (tc_name call))
        = None) ->
  fst (_handleVirtualCalls Grouping didCall toolGrouping context) = context.
Proof.
  intros [-> | Hnone]; [reflexivity|].
  unfold _handleVirtualCalls. destruct toolGrouping as [grouping|]; [|reflexivity].
  cbn [fst].
  assert (Hfold : forall calls state,
            (forall call, call ∈ calls -> call ∈ lastRoundCalls context) ->
            fst state = ctx_toolCallResults context ->
            fst (foldl (handleVirtualCall Grouping didCall
                          (length (default [] (ctx_toolCallRounds context))))
                       state calls) = fst state).
  { induction calls as [|call calls IH]; intros state Hcalls Hstate; [reflexivity|].
    cbn [foldl].
    assert (Hstep : fst (handleVirtualCall Grouping didCall
                           (length (default [] (ctx_toolCallRounds context)))
                           state call) = fst state).
    { unfold handleVirtualCall.
      destruct (contextResult (fst state) (tc_id call)) eqn:Ehas; [reflexivity|].
      rewrite Hstate in Ehas.
      specialize (Hnone (snd state) call (Hcalls call ltac:(apply elem_of_cons; now left))
                        Ehas).
      destruct (didCall _ _ _) as [[expanded|] g]; [discriminate | reflexivity]. }
    rewrite IH.
    - exact Hstep.
    - intros c Hc. apply Hcalls, elem_of_cons. now right.
    - now rewrite Hstep. }
  rewrite Hfold; [now destruct context | auto | reflexivity].
Qed.

End VirtualCallResults.

(** ** The temperature over the attempts *)

Section TemperatureRange.

Variables o o' : IDefaultToolLoopOptions.

Lemma scaled_base_le (base : Q) (k k' : nat) :
  (0 <= base)%Q -> (k <= k')%nat ->
  (base * inject_Z (Z.of_nat (k + 1)) <= base * inject_Z (Z.of_nat (k' + 1)))%Q.
Proof.
  intros Hbase Hk. rewrite !(Qmult_comm base).
  apply Qmult_le_compat_r; [|exact Hbase].
  rewrite <- Zle_Qle. lia.
Qed.

Lemma base_le_scaled (base : Q) (k : nat) :
  (0 <= base)%Q -> (base <= base * inject_Z (Z.of_nat (k + 1)))%Q.
Proof.
  intros Hbase.
  rewrite <- (Qmult_1_r base) at 1.
  rewrite !(Qmult_comm base).
  apply Qmult_le_compat_r; [|exact Hbase].
  change 1%Q with (inject_Z 1). rewrite <- Zle_Qle. lia.
Qed.

(** A retried request never gets a temperature above 2, whatever the
    base; and for a base between 0 and 2 the temperature of every attempt,
    the first included, is between 0 and 2. *)
Theorem calculateTemperature_range :
  ((0 < attempt (lo_request o))%nat -> (calculateTemperature o <= 2)%Q)
  /\ ((0 <= lo_temperature o)%Q -> (lo_temperature o <= 2)%Q ->
      (0 <= calculateTemperature o)%Q /\ (calculateTemperature o <= 2)%Q).
Proof.
  unfold calculateTemperature. split.
  - intros Hk. destruct (Nat.ltb_spec 0 (attempt (lo_request o))); [|lia].
    apply Q.le_min_r.
  - intros Hpos Hmax.
    destruct (Nat.ltb_spec 0 (attempt (lo_request o))); [|now split].
    split; [|apply Q.le_min_r].
    apply Q.min_glb; [|discriminate].
    apply Qle_trans with (lo_temperature o); [exact Hpos | now apply base_le_scaled].
Qed.

(** For a base between 0 and 2 the temperature does not decrease from one
    attempt to a later one. *)
Theorem calculateTemperature_monotone :
  lo_temperature o = lo_temperature o' ->
  (0 <= lo_temperature o)%Q -> (lo_temperature o <= 2)%Q ->
  (attempt (lo_request o) <= attempt (lo_request o'))%nat ->
  (calculateTemperature o <= calculateTemperature o')%Q.
Proof.
  intros Hsame Hpos Hmax Hk. unfold calculateTemperature. rewrite <- Hsame.
  destruct (Nat.ltb_spec 0 (attempt (lo_request o))) as [Hk0 | Hk0],
           (Nat.ltb_spec 0 (attempt (lo_request o'))) as [Hk1 | Hk1]; try lia.
  - apply Q.min_le_compat_r. now apply scaled_base_le.
  - apply Q.min_glb; [now apply base_le_scaled | exact Hmax].
  - apply Qle_refl.
Qed.

End TemperatureRange.

(** ** The timers of a retry *)

(** A retry that starts at attempt 1 sets at most five timers, with the
    delays 200, 400, 600, 800 and 1000 ms in this order; it stops at the
    first attempt that sees a result, which is the result it renders, and
    gives up without a result after the fifth. *)
Theorem retryParallelTaskProcessing_schedule
    (visible : nat -> option LanguageModelToolResult2) :
  exists n : nat,
    (1 <= n <= 5)%nat
    /\ fst (retryParallelTaskProcessing 1 visible) = (fun k => (k * 200)%nat) <$> seq 1 n
    /\ snd (retryParallelTaskProcessing 1 visible) = visible n
    /\ (forall k : nat, (1 <= k < n)%nat -> visible k = None)
    /\ ((n < 5)%nat -> is_Some (visible n)).
Proof.
  unfold retryParallelTaskProcessing. cbn.
  assert (Hrange : forall (n k : nat) (P : nat -> Prop),
            (1 <= k < n)%nat -> (n <= 5)%nat ->
            (P 1%nat /\ P 2%nat /\ P 3%nat /\ P 4%nat) -> P k).
  { intros n k P Hk Hn (H1 & H2 & H3 & H4).
    assert (Hcases : k = 1%nat \/ k = 2%nat \/ k = 3%nat \/ k = 4%nat) by lia.
    destruct Hcases as [-> | [-> | [-> | ->]]]; assumption. }
  destruct (visible 1%nat) eqn:E1;
    [exists 1%nat; cbn; rewrite E1; repeat split; try lia; eauto|].
  destruct (visible 2%nat) eqn:E2;
    [exists 2%nat; cbn; rewrite E2; repeat split; try lia; eauto;
     intros k Hk; assert (k = 1%nat) as -> by lia; assumption|].
  destruct (visible 3%nat) eqn:E3;
    [exists 3%nat; cbn; rewrite E3; repeat split; try lia; eauto;
     intros k Hk; assert (Hc : k = 1%nat \/ k = 2%nat) by lia;
     destruct Hc as [-> | ->]; assumption|].
  destruct (visible 4%nat) eqn:E4;
    [exists 4%nat; cbn; rewrite E4; repeat split; try lia; eauto;
     intros k Hk; assert (Hc : k = 1%nat \/ k = 2%nat \/ k = 3%nat) by lia;
     destruct Hc as [-> | [-> | ->]]; assumption|].
  exists 5%nat. cbn.
  destruct (visible 5%nat) eqn:E5; cbn; repeat split; try lia;
    intros k Hk; apply (Hrange 5%nat k (fun k => visible k = None) Hk);
    try lia; repeat split; assumption.
Qed.

(** ** The references of the first prompt *)

Section ReportedReferences.

Variable getUniqueReferences : list PromptReference -> list PromptReference.

(** Every reference reported for the first prompt is either a reference of
    the prompt that does not come from a tool, reported with its own options
    when it has any and otherwise with no options or as partially sent, or
    an omitted reference on a variable, reported as not sent. A reference
    that comes from a tool, and an omitted reference that is not on a
    variable, are never what a report is made for. Every reference of the
    prompt that does not come from a tool is reported. *)
Theorem _sendInitialChatReferences_reports (buildPromptResult : IBuildPromptResult) :
  let calls := _sendInitialChatReferences getUniqueReferences buildPromptResult in
  (forall c : Reference2Call, c ∈ calls ->
     (exists reference : PromptReference,
        reference ∈ references buildPromptResult
        /\ fromTool reference = false
        /\ r2_anchor c = anchor reference
        /\ match ref_options reference with
           | Some own => r2_options c = Some own
           | None => r2_options c = None \/ r2_options c = Some partiallySent
           end)
     \/ (exists omitted : PromptReference,
           omitted ∈ omittedReferences buildPromptResult
           /\ is_Some (variableName (anchor omitted))
           /\ r2_anchor c = anchor omitted
           /\ r2_options c = Some notSent))
  /\ (forall reference : PromptReference,
        reference ∈ references buildPromptResult ->
        fromTool reference = false ->
        exists c : Reference2Call, c ∈ calls /\ r2_anchor c = anchor reference).
Proof.
  cbn zeta. unfold _sendInitialChatReferences. split.
  - intros c [Hc | Hc]%elem_of_app.
    + left. apply list_elem_of_bind in Hc as (reference & Hc & Hin).
      exists reference. split; [exact Hin|].
      destruct (fromTool reference) eqn:Etool; [now apply elem_of_nil in Hc|].
      apply list_elem_of_singleton in Hc. subst c. cbn.
      split; [reflexivity|]. split; [reflexivity|].
      destruct (ref_options reference); [reflexivity|].
      destruct (variableName (anchor reference)); [|now left].
      case_decide; [now right | now left].
    + right. apply list_elem_of_bind in Hc as (omitted & Hc & Hin).
      exists omitted. split; [exact Hin|].
      destruct (variableName (anchor omitted)) as [n|]; [|now apply elem_of_nil in Hc].
      case_decide; [now apply elem_of_nil in Hc|].
      apply list_elem_of_singleton in Hc. subst c. cbn.
      split; [now eexists|]. split; reflexivity.
  - intros reference Hin Htool. eexists. split.
    + apply elem_of_app. left. apply list_elem_of_bind.
      exists reference. split; [|exact Hin].
      rewrite Htool. apply list_elem_of_singleton. reflexivity.
    + reflexivity.
Qed.

End ReportedReferences.

(** ** The further statements at concrete inputs *)

Module MoreExamples.
Import Doubles Staged.

Lemma failed_recorded_result :
  exists recorded : TurnResponse,
    last (turnResponses
            (snd (@processResult (scripted false (inl (OtherError "unused"))) aHandler
                    (aFetchResult ChatFetchResponseType.Failed) "" None emptyMetadata
                    "message-1" [] initialWorld))) = Some recorded
    /\ responseId recorded = Some "message-1".
Proof.
  destruct (@processResult_recorded_result
              (scripted false (inl (OtherError "unused"))) aHandler "" None
              emptyMetadata "message-1" [] (aFetchResult ChatFetchResponseType.Failed)
              initialWorld ltac:(discriminate))
    as (result & recorded & _ & Hlast & Hid & _).
  exists recorded. split; assumption.
Defined.

Lemma prompt_filtered_reason :
  exists (result : ChatResult) (md : IResultMetadata) (w' : World),
    @processResult (scripted false (inl (OtherError "unused"))) aHandler
      (aFetchResult ChatFetchResponseType.PromptFiltered) "" None emptyMetadata
      "message-1" [] initialWorld = (inr result, w')
    /\ metadata result = Some md
    /\ filterReason md = Some "prompt".
Proof.
  destruct (@processResult_filter_reason
              (scripted false (inl (OtherError "unused"))) aHandler "" None
              emptyMetadata "message-1" []
              (aFetchResult ChatFetchResponseType.PromptFiltered) initialWorld
              (or_intror eq_refl))
    as (result & md & w' & Hrun & Hmd & Hreason & _).
  exists result, md, w'. repeat split; assumption.
Defined.

Lemma canceled_user_message :
  exists (result : ChatResult) (recorded : TurnResponse) (w' : World),
    @processResult (scripted false (inl (OtherError "unused"))) aHandler
      (aFetchResult ChatFetchResponseType.Canceled) "" None emptyMetadata
      "message-1" [] initialWorld = (inr result, w')
    /\ turnResponses w' = [recorded]
    /\ turnMessage recorded = Some {| tm_type := user; tm_message := "reason" |}.
Proof.
  destruct (@processResult_error_details
              (scripted false (inl (OtherError "unused"))) aHandler "" None
              emptyMetadata "message-1" []
              (aFetchResult ChatFetchResponseType.Canceled) initialWorld
              ltac:(discriminate) ltac:(discriminate) ltac:(discriminate)
              ltac:(discriminate))
    as (result & recorded & w' & Hrun & _ & Hturn & Hmessage).
  exists result, recorded, w'. repeat split; assumption.
Defined.

Lemma cancelled_request_does_nothing :
  @getResult (scripted false (inl (OtherError "unused"))) aHandler (cancel initialWorld)
  = (inr {| errorDetails := Some (messageOnly "Canceled"); metadata := None |},
     cancel initialWorld).
Proof.
  apply (@getResult_cancelled_at_start (scripted false (inl (OtherError "unused")))
           aHandler eq_refl (cancel initialWorld) eq_refl).
Defined.

Lemma cancelled_while_invoking :
  snd (@getResult (services invokeAndCancel (ret tt) (throw (OtherError "unused")))
         aHandler initialWorld)
  = cancel (withIntentInvocation (appendLog (LogTrace "Processing intent") initialWorld)).
Proof.
  rewrite (@getResult_cancelled_after_invoke
             (services invokeAndCancel (ret tt) (throw (OtherError "unused")))
             aHandler eq_refl anInvocation initialWorld
             (cancel (withIntentInvocation
                        (appendLog (LogTrace "Processing intent") initialWorld)))
             eq_refl eq_refl eq_refl).
  reflexivity.
Defined.

Lemma confirmation_answered :
  fst (@getResult (services (ret confirming) (stream_markdown "Confirmed.")
                            (throw (OtherError "unused")))
         answering initialWorld) = inr emptyResult
  /\ stream (snd (@getResult (services (ret confirming) (stream_markdown "Confirmed.")
                                       (throw (OtherError "unused")))
                    answering initialWorld)) = [Markdown "Confirmed."].
Proof.
  rewrite (@getResult_confirmation
             (services (ret confirming) (stream_markdown "Confirmed.")
                       (throw (OtherError "unused")))
             answering eq_refl confirming initialWorld _ _
             eq_refl eq_refl eq_refl eq_refl eq_refl eq_refl).
  split; reflexivity.
Defined.

Lemma cancelled_tool_call :
  fst (@getResult (services (ret anInvocation) (ret tt)
                            (throw (ToolCallCancelledError "The tool call was cancelled")))
         aHandler initialWorld) = inr emptyResult
  /\ map status
       (turnResponses
          (snd (@getResult (services (ret anInvocation) (ret tt)
                              (throw (ToolCallCancelledError "The tool call was cancelled")))
                  aHandler initialWorld))) = [TurnStatus.Cancelled].
Proof.
  rewrite (@getResult_tool_call_cancelled
             (services (ret anInvocation) (ret tt)
                       (throw (ToolCallCancelledError "The tool call was cancelled")))
             aHandler eq_refl anInvocation "The tool call was cancelled" initialWorld _ _
             eq_refl eq_refl eq_refl eq_refl eq_refl).
  split; reflexivity.
Defined.

Lemma empty_prompt_leaves_turn_unmarked :
  fst (@getResult (services (ret anInvocation) (ret tt) (throw (EmptyPromptError "empty")))
         aHandler initialWorld) = inr emptyResult
  /\ turnResponses
       (snd (@getResult (services (ret anInvocation) (ret tt)
                                  (throw (EmptyPromptError "empty")))
               aHandler initialWorld)) = [].
Proof.
  rewrite (@getResult_loop_cancelled_or_empty
             (services (ret anInvocation) (ret tt) (throw (EmptyPromptError "empty")))
             aHandler eq_refl anInvocation (EmptyPromptError "empty") initialWorld _ _
             eq_refl eq_refl eq_refl eq_refl eq_refl eq_refl).
  split; reflexivity.
Defined.

Lemma nothing_to_confirm :
  @handleConfirmationsIfNeeded (scripted false (inl (OtherError "unused"))) aHandler
    (snd (setIntentInvocationMetadata confirming initialWorld))
  = (inr None, snd (setIntentInvocationMetadata confirming initialWorld)).
Proof.
  apply (@handleConfirmationsIfNeeded_nothing_to_confirm
           (scripted false (inl (OtherError "unused"))) aHandler confirming
           (snd (setIntentInvocationMetadata confirming initialWorld)) eq_refl).
  left. split; left; reflexivity.
Defined.

Lemma limit_mark_on_success :
  exists (result : ChatResult) (w' : World),
    @resultOfLoop (scripted false (inl (OtherError "unused"))) aHandler anInvocation
      atLimit initialWorld = (inr result, w')
    /\ metadataMaxToolCallsExceeded result = true.
Proof.
  destruct (@resultOfLoop_limit_mark (scripted false (inl (OtherError "unused")))
              aHandler anInvocation atLimit initialWorld ltac:(discriminate))
    as (result & w' & Hrun & Hmark).
  exists result, w'. split; [exact Hrun | exact Hmark].
Defined.

Lemma success_with_last_text :
  exists (result : ChatResult) (recorded : TurnResponse) (w' : World),
    @resultOfLoop (scripted false (inl (OtherError "unused"))) aHandler anInvocation
      atLimit initialWorld = (inr result, w')
    /\ turnResponses w' = [recorded]
    /\ turnMessage recorded = Some {| tm_type := model; tm_message := "working" |}.
Proof.
  destruct (@resultOfLoop_success (scripted false (inl (OtherError "unused")))
              aHandler anInvocation atLimit initialWorld eq_refl eq_refl)
    as (result & md & recorded & w' & Hrun & Hturn & _ & Hmessage & _).
  exists result, recorded, w'. repeat split; assumption.
Defined.

Lemma limit_reported_as_max_tool_calls :
  telemetry (snd (@runWithToolCalling (services (ret anInvocation) (ret tt) (ret atLimit))
                    aHandler anInvocation initialWorld))
  = [ToolCallingTelemetry (lr_toolCallRounds atLimit) OutcomeMaxToolCalls].
Proof.
  rewrite (@runWithToolCalling_telemetry
             (services (ret anInvocation) (ret tt) (ret atLimit))
             aHandler anInvocation atLimit initialWorld (withLoopRun initialWorld) eq_refl).
  reflexivity.
Defined.

Lemma loop_without_buttons :
  exists (returned : IToolCallLoopResult) (w' : World),
    @runWithToolCalling (services (ret anInvocation) (ret tt) (ret atLimit))
      aHandler anInvocation initialWorld = (inr returned, w')
    /\ stream w' = []
    /\ turnResponses w' = [].
Proof.
  destruct (@runWithToolCalling_stream
              (services (ret anInvocation) (ret tt) (ret atLimit))
              aHandler anInvocation atLimit initialWorld (withLoopRun initialWorld) eq_refl)
    as (returned & w' & Hrun & Hstream & Hturn & _).
  exists returned, w'. repeat split; assumption.
Defined.

Lemma nothing_expanded :
  fst (_handleVirtualCalls unit noExpansion (Some tt) aContext) = aContext.
Proof.
  apply (_handleVirtualCalls_unchanged unit noExpansion (Some tt) aContext).
  right. intros g call Hin Hnone. reflexivity.
Defined.

Lemma second_attempt_not_cooler :
  (0 <= 7 # 10)%Q
  /\ (calculateTemperature (loopOptionsAt (7 # 10) 1)
      <= calculateTemperature (loopOptionsAt (7 # 10) 2))%Q.
Proof.
  split; [discriminate|].
  apply (calculateTemperature_monotone (loopOptionsAt (7 # 10) 1)
           (loopOptionsAt (7 # 10) 2) eq_refl);
    [discriminate | discriminate | cbn; lia].
Defined.

Lemma no_response_without_rounds :
  exists (recorded : TurnResponse) (w' : World),
    @resultOfLoop (scripted false (inl (OtherError "unused"))) aHandler anInvocation
      (aLoopResult ChatFetchResponseType.Success false) initialWorld
    = (inr {| errorDetails :=
                Some (messageOnly
                        "The model unexpectedly did not return a response. Request ID: req-42");
              metadata := None |}, w')
    /\ turnResponses w' = [recorded]
    /\ status recorded = TurnStatus.Error.
Proof.
  destruct (@resultOfLoop_no_response (scripted false (inl (OtherError "unused")))
              aHandler anInvocation (aLoopResult ChatFetchResponseType.Success false)
              initialWorld eq_refl eq_refl)
    as (recorded & w' & Hrun & Hturn & Hstatus & _).
  exists recorded, w'. repeat split; assumption.
Defined.

End MoreExamples.
